(** * Westpac-Scholars photo downloaders

    A shallow embedding of the two photo download scripts of the repository,
    [download_photos.py] (candidate URL generation, one session per record)
    and [dns_resolver_download.py] (one URL tried under a ladder of DNS
    servers), and the properties of their per-record control flow.

    Python strings are modelled by [string]; values read from a pandas row
    are dynamically typed and modelled by [pyval].  Effects (log records,
    name resolution, HTTP requests, the artifact directory) are threaded
    through an explicit [world]; what the outside answers is read from an
    environment [Env], which may depend on everything that happened so far. *)

From Stdlib Require Import String Ascii ZArith List.
From stdpp Require Import base decidable option list gmap strings pretty.

Local Open Scope string_scope.
Local Open Scope Z_scope.
Local Open Scope list_scope.

(** ** Python values, exceptions and results *)

(** The values a row cell or an outcome field can hold.  [VNum] stands for
    the numeric cells pandas produces (int64, float64 and the float NaN of
    an empty cell): the scripts only test them for truth and format them. *)
Inductive pyval :=
  | VNone
  | VBool (b : bool)
  | VStr (s : string)
  | VNum (nonzero : bool) (repr : string).

#[global] Instance pyval_eq_dec : EqDecision pyval.
Proof. solve_decision. Defined.

(** [bool(v)] *)
Definition truthy (v : pyval) : bool :=
  match v with
  | VNone => false
  | VBool b => b
  | VStr s => negb (String.eqb s "")
  | VNum nz _ => nz
  end.

(** [str(v)], which is also what an f-string field [{v}] prints. *)
Definition py_str (v : pyval) : string :=
  match v with
  | VNone => "None"
  | VBool true => "True"
  | VBool false => "False"
  | VStr s => s
  | VNum _ r => r
  end.

(** [isinstance(v, str)] *)
Definition is_str (v : pyval) : bool :=
  match v with VStr _ => true | _ => false end.

(** The float NaN pandas stores for an empty CSV cell: true in a boolean
    context, printed as [nan]. *)
Definition NaN : pyval := VNum true "nan".

(** Exception classes that can reach the scripts, with the two families
    their [except] clauses name. *)
Inductive exc_class :=
  | AttributeError
  | TypeError
  | ValueError
  | UnicodeError
  | OSError
  | gaierror
  | DNSException
  | RequestException.

#[global] Instance exc_class_eq_dec : EqDecision exc_class.
Proof. solve_decision. Defined.

Record exc := Exc { exc_cls : exc_class; exc_msg : string }.

#[global] Instance exc_eq_dec : EqDecision exc.
Proof. solve_decision. Defined.

Inductive result (A : Type) :=
  | Ok (a : A)
  | Raise (e : exc).
Arguments Ok {A} a.
Arguments Raise {A} e.

Definition rbind {A B} (r : result A) (k : A -> result B) : result B :=
  match r with
  | Ok a => k a
  | Raise e => Raise e
  end.

#[global] Instance result_ret : MRet result := @Ok.
#[global] Instance result_bind : MBind result := fun A B k r => rbind r k.

(** ** String operations of the Python runtime used by the scripts *)

Module Str.

(** [s.startswith(p)] *)
Definition startswith (p s : string) : bool := String.prefix p s.

Definition drop_while (f : ascii -> bool) : string -> string :=
  fix go (s : string) : string :=
    match s with
    | EmptyString => EmptyString
    | String c s' => if f c then go s' else s
    end.

Fixpoint rev_string (s acc : string) : string :=
  match s with
  | EmptyString => acc
  | String c s' => rev_string s' (String c acc)
  end.

(** [s.strip()] for a given whitespace class. *)
Definition strip (isspace : ascii -> bool) (s : string) : string :=
  let l := drop_while isspace s in
  rev_string (drop_while isspace (rev_string l "")) "".

(** [s.replace(old, new)] for a non-empty [old]: leftmost matches, not
    overlapping.  [skip] counts the characters of a match still to be
    passed over. *)
Fixpoint replace_from (old new : string) (skip : nat) (s : string) : string :=
  match s with
  | EmptyString => EmptyString
  | String c s' =>
      match skip with
      | S k => replace_from old new k s'
      | O =>
          if String.prefix old s
          then new +:+ replace_from old new (String.length old - 1) s'
          else String c (replace_from old new 0 s')
      end
  end.

(** With an empty [old], Python puts [new] before every character and
    at the end. *)
Fixpoint intersperse_after (new s : string) : string :=
  match s with
  | EmptyString => EmptyString
  | String c s' => String c (new +:+ intersperse_after new s')
  end.

Definition replace (old new s : string) : string :=
  if String.eqb old "" then new +:+ intersperse_after new s
  else replace_from old new 0 s.

Definition filter (f : ascii -> bool) : string -> string :=
  fix go (s : string) : string :=
    match s with
    | EmptyString => EmptyString
    | String c s' => if f c then String c (go s') else go s'
    end.

(** [s[1:]] *)
Definition tail (s : string) : string :=
  match s with
  | EmptyString => EmptyString
  | String _ s' => s'
  end.

End Str.

(** [os.path.join(a, b)] on POSIX: an absolute [b] discards [a]. *)
Definition os_path_join (a b : string) : string :=
  if Str.startswith "/" b then b
  else if String.eqb a "" then b
  else if Str.startswith "/" (Str.rev_string a "") then a +:+ b
  else a +:+ "/" +:+ b.

(** ** Python sets of strings

    [set(l)] adds the elements of [l] one by one; adding a key that is
    already present changes nothing.  The order in which [list(s)] later
    enumerates the keys is the order of the hash table, which Python leaves
    unspecified (for strings it changes with the hash seed of the process):
    [slot x s] is the place among the keys [s] at which the table puts the
    new key [x]. *)
Module PySet.

Definition insert_at (i : nat) (x : string) (s : list string) : list string :=
  take i s ++ x :: drop i s.

Definition add (slot : string -> list string -> nat) (s : list string) (x : string)
  : list string :=
  if decide (x ∈ s) then s else insert_at (slot x s) x s.

(** [list(set(l))] *)
Definition list_set (slot : string -> list string -> nat) (l : list string)
  : list string :=
  foldl (add slot) [] l.

(** The order that keeps every key where it was first seen. *)
Definition first_seen : string -> list string -> nat :=
  fun _ s => length s.

(** An order that enumerates the newest key first. *)
Definition newest_first : string -> list string -> nat :=
  fun _ _ => 0%nat.

End PySet.

(** [os.path.splitext(p)[1]]: the extension starts at the last dot of the
    last path component, unless only dots precede it there. *)
Module OsPath.

(** Splits at the last occurrence of [c]: what is before it, and the
    rest from [c] on. *)
Fixpoint rsplit_at (c : ascii) (s : string) : option (string * string) :=
  match s with
  | EmptyString => None
  | String x s' =>
      match rsplit_at c s' with
      | Some (a, b) => Some (String x a, b)
      | None => if Ascii.eqb x c then Some (EmptyString, s) else None
      end
  end.

Definition basename (p : string) : string :=
  match rsplit_at "/" p with
  | Some (_, b) => Str.tail b
  | None => p
  end.

Definition all_dots (s : string) : bool :=
  String.eqb (Str.filter (fun c => negb (Ascii.eqb c ".")) s) "".

Definition splitext_ext (p : string) : string :=
  match rsplit_at "." (basename p) with
  | Some (stem, ext) => if all_dots stem then "" else ext
  | None => ""
  end.

End OsPath.

(** ** The world outside the scripts *)

Inductive level := INFO | WARNING | ERROR.

(** What a run leaves behind, in order: log records and the calls that go
    to the network. *)
Inductive event :=
  | Log (lvl : level) (msg : string)
  | DnsQuery (nameservers : list string) (domain : string)
  | GetHostByName (domain : string)
  | RequestsGet (url : string) (host_header : string)
  | SessionGet (url : string).

#[global] Instance level_eq_dec : EqDecision level.
Proof. solve_decision. Defined.
#[global] Instance event_eq_dec : EqDecision event.
Proof. solve_decision. Defined.

Definition is_network_call (ev : event) : bool :=
  match ev with
  | Log _ _ => false
  | _ => true
  end.

Definition network_calls (t : list event) : list event :=
  List.filter is_network_call t.

(** A streamed HTTP response: status line, the [Content-Type] header when
    there is one, the chunks [iter_content] yields, and the exception it
    raises after them when the transfer breaks. *)
Record response := Response {
  status_code : Z;
  content_type_header : option string;
  body_chunks : list string;
  body_error : option exc
}.

Record parsed_url := ParseResult { netloc : string; path : string }.

(** [urllib3.util.retry.Retry] as [create_session] configures it. *)
Record Retry := {
  total : Z;
  backoff_factor : Z;
  status_forcelist : list Z;
  allowed_methods : list string
}.

Record session := Session { max_retries : Retry }.

(** The artifact directory (path to file content) and the trace so far.
    [files] holds every file but the script's own log file: the handlers
    that [logging.basicConfig] installs print each record and append it to
    that file ([LOG_FILE] in the module of each script), and the records
    appended are the [Log] events of the trace, in order. *)
Record world := World {
  files : gmap string string;
  trace : list event
}.

(** The Python runtime and the network: the place the hash table gives a
    new set key, the whitespace and word character classes, [urllib.parse]
    (pure, but it may raise), whether a path can be opened for writing
    (once a file is open, writing to it succeeds), and the answers of the
    resolvers and of the HTTP origin, each of which may depend on the whole
    trace before the call. *)
Record Env := {
  set_slot : string -> list string -> nat;
  isspace : ascii -> bool;
  isword : ascii -> bool;
  urlparse : string -> result parsed_url;
  urljoin : string -> string -> result string;
  open_error : string -> option exc;
  resolver_resolve : list event -> list string -> string -> result (list string);
  gethostbyname : list event -> string -> result string;
  requests_get : list event -> string -> string -> result response;
  session_get : session -> list event -> string -> result response
}.

(** ** Computations: state and exceptions *)

Definition M (A : Type) : Type := world -> result A * world.

Definition ret {A} (a : A) : M A := fun w => (Ok a, w).

Definition raise {A} (e : exc) : M A := fun w => (Raise e, w).

Definition bind {A B} (m : M A) (k : A -> M B) : M B :=
  fun w =>
    match m w with
    | (Ok a, w') => k a w'
    | (Raise e, w') => (Raise e, w')
    end.

#[global] Instance M_ret : MRet M := @ret.
#[global] Instance M_bind : MBind M := fun A B k m => bind m k.

Definition lift {A} (r : result A) : M A := fun w => (r, w).

(** [try: m except C as e: h e], where [catches] tells the classes [C]
    covers. *)
Definition try_except {A} (m : M A) (catches : exc -> bool) (h : exc -> M A) : M A :=
  fun w =>
    match m w with
    | (Ok a, w') => (Ok a, w')
    | (Raise e, w') => if catches e then h e w' else (Raise e, w')
    end.

Definition emit (ev : event) : M unit :=
  fun w => (Ok tt, World (files w) (trace w ++ [ev])).

(** [logger.info(msg)], [logger.warning(msg)], [logger.error(msg)]: the
    record goes to the two handlers of [basicConfig], the console and the
    script's log file ([LOG_FILE] below), which is appended to.  The record
    is kept as a [Log] event of the trace; the log file is not among
    [files], so a statement about [files] says nothing about it. *)
Definition log (lvl : level) (msg : string) : M unit := emit (Log lvl msg).

(** [except Exception] *)
Definition any_exception (e : exc) : bool := true.
(** [except socket.gaierror] *)
Definition is_gaierror (e : exc) : bool := bool_decide (exc_cls e = gaierror).
(** [except requests.exceptions.RequestException] *)
Definition is_request_exception (e : exc) : bool :=
  bool_decide (exc_cls e = RequestException).

(** [os.path.exists(p)] *)
Definition os_path_exists (p : string) : M bool :=
  fun w => (Ok (bool_decide (is_Some (files w !! p))), w).

(** [with open(p, 'wb') as f: for chunk in response.iter_content(..):
    f.write(chunk)]: the file is created empty (or truncated) when it is
    opened, every chunk is appended as it arrives, and a transfer that
    breaks raises after the chunks received so far were written. *)
Definition save_stream (E : Env) (p : string) (r : response) : M unit :=
  fun w =>
    match open_error E p with
    | Some e => (Raise e, w)
    | None =>
        let w' := World (<[p := String.concat "" (body_chunks r)]> (files w)) (trace w) in
        match body_error r with
        | Some e => (Raise e, w')
        | None => (Ok tt, w')
        end
    end.

(** Method calls on a dynamically typed cell: only [str] has them. *)
Definition py_strip (E : Env) (v : pyval) : result string :=
  match v with
  | VStr s => Ok (Str.strip (isspace E) s)
  | _ => Raise (Exc AttributeError "object has no attribute 'strip'")
  end.

Definition py_replace (v : pyval) (old new : string) : result string :=
  match v with
  | VStr s => Ok (Str.replace old new s)
  | _ => Raise (Exc AttributeError "object has no attribute 'replace'")
  end.

(** [urlparse(v)]: anything that is not a string has no [decode]. *)
Definition py_urlparse (E : Env) (v : pyval) : result parsed_url :=
  match v with
  | VStr s => urlparse E s
  | _ => Raise (Exc AttributeError "object has no attribute 'decode'")
  end.

(** [row.get(key, default)] *)
Definition row_get (row : gmap string pyval) (key : string) (dflt : pyval) : pyval :=
  default dflt (row !! key).

(** [response.headers.get('Content-Type', '')] *)
Definition content_type (r : response) : string :=
  default "" (content_type_header r).

(** ** download_photos.py *)
Module DownloadPhotos.

Definition OUTPUT_DIR : string := "scholar_photos".
(** [logging.FileHandler("photo_download.log")] *)
Definition LOG_FILE : string := "photo_download.log".
Definition MAX_RETRIES : Z := 3.
Definition RETRY_BACKOFF : Z := 2.
Definition ALTERNATIVE_BASE_URLS : list string :=
  [ "https://scholars.westpac.com.au";
    "https://www.westpac.com.au/about-westpac/sustainability/initiatives-for-you/westpac-scholars";
    "https://www.westpac.com.au/content/dam/public/wsch/images" ].

Definition create_session : session :=
  Session {| total := MAX_RETRIES;
             backoff_factor := RETRY_BACKOFF;
             status_forcelist := [429; 500; 502; 503; 504];
             allowed_methods := ["GET"] |}.

(** First loop of [generate_alternative_urls]: the path of the URL
    re-rooted under every base. *)
Fixpoint rebase_loop (E : Env) (url : pyval) (bases : list string)
    (alternatives : list string) : result (list string) :=
  match bases with
  | [] => Ok alternatives
  | base_url :: rest =>
      parsed ← py_urlparse E url;
      let path0 := path parsed in
      let path1 := if Str.startswith "/" path0 then Str.tail path0 else path0 in
      joined ← urljoin E (base_url +:+ "/") path1;
      rebase_loop E url rest (alternatives ++ [joined])
  end.

(** Second loop: the three year/id file name patterns under every base. *)
Fixpoint pattern_loop (scholar_id year : pyval) (bases : list string)
    (alternatives : list string) : list string :=
  match bases with
  | [] => alternatives
  | base_url :: rest =>
      let y := py_str year in
      let i := py_str scholar_id in
      pattern_loop scholar_id year rest
        (alternatives ++
           [ base_url +:+ "/" +:+ y +:+ "/wsch_scholarhs_" +:+ i +:+ "_480x480.jpg";
             base_url +:+ "/scholars_" +:+ y +:+ "/profile_" +:+ i +:+ ".jpg";
             base_url +:+ "/scholars/profile_" +:+ y +:+ "_" +:+ i +:+ ".jpg" ])
  end.

(** The candidates in the order the function builds them, before
    [list(set(..))]. *)
Definition alternatives_built (E : Env) (url scholar_id year : pyval)
  : result (list string) :=
  alternatives ← rebase_loop E url ALTERNATIVE_BASE_URLS [py_str url];
  Ok (if truthy year && truthy scholar_id
      then pattern_loop scholar_id year ALTERNATIVE_BASE_URLS alternatives
      else alternatives).

Definition generate_alternative_urls (E : Env) (url scholar_id year : pyval)
  : result (list string) :=
  if negb (truthy url) then Ok []
  else
    alternatives ← alternatives_built E url scholar_id year;
    Ok (PySet.list_set (set_slot E) alternatives).

(** [response.raise_for_status()] *)
Definition raise_for_status (r : response) : M unit :=
  if (400 <=? status_code r) && (status_code r <? 600)
  then raise (Exc RequestException ("HTTPError: " +:+ pretty (status_code r)))
  else ret tt.

(** What one turn of the loop over [urls_to_try] decides. *)
Inductive loop_step := Continue | Return (filepath : string).

(** [session.get(current_url, stream=True, timeout=TIMEOUT)] *)
Definition session_get_op (E : Env) (s : session) (current_url : string) : M response :=
  fun w => (session_get E s (trace w) current_url,
            World (files w) (trace w ++ [SessionGet current_url])).

(** The rest of the [try] block once [session.get] has returned: status
    check, content type check, save. *)
Definition handle_response (E : Env) (name : pyval) (filepath current_url : string)
    (response : response) : M loop_step :=
  raise_for_status response;;
  if negb (Str.startswith "image/" (content_type response))
  then
    log WARNING ("URL " +:+ current_url +:+ " returned non-image content type: "
                 +:+ content_type response);;
    ret Continue
  else
    save_stream E filepath response;;
    log INFO ("Successfully downloaded image for " +:+ py_str name);;
    ret (Return filepath).

(** The body of the [try] block for one candidate. *)
Definition attempt (E : Env) (s : session) (name : pyval) (filepath : string)
    (i n : nat) (current_url : string) : M loop_step :=
  log INFO ("Attempting to download image for " +:+ py_str name +:+ " from "
            +:+ current_url +:+ " (attempt " +:+ pretty (S i) +:+ "/"
            +:+ pretty n +:+ ")");;
  response ← session_get_op E s current_url;
  handle_response E name filepath current_url response.

(** [for i, current_url in enumerate(urls_to_try)], from index [i] on,
    followed by the failure exit below the loop. *)
Fixpoint try_urls (E : Env) (s : session) (name : pyval) (filepath : string)
    (i n : nat) (urls : list string) : M (option string) :=
  match urls with
  | [] =>
      log ERROR ("All download attempts failed for " +:+ py_str name);;
      ret None
  | current_url :: rest =>
      step ← try_except (attempt E s name filepath i n current_url)
               is_request_exception
               (fun e =>
                  log WARNING ("Failed to download from " +:+ current_url
                               +:+ " for " +:+ py_str name +:+ ": " +:+ exc_msg e);;
                  ret Continue);
      match step with
      | Return fp => ret (Some fp)
      | Continue => try_urls E s name filepath (S i) n rest
      end
  end.

(** [re.sub(r'[^\w\s-]', '', name)] *)
Definition re_sub_name (E : Env) (name : pyval) : result string :=
  match name with
  | VStr s =>
      Ok (Str.filter (fun c => isword E c || isspace E c || Ascii.eqb c "-") s)
  | _ => Raise (Exc TypeError "expected string or bytes-like object")
  end.

(** The file name part of [download_image], up to [filepath]. *)
Definition artifact_path (E : Env) (url scholar_id name : pyval) : result string :=
  kept ← re_sub_name E name;
  let name_clean := Str.replace " " "_" kept in
  parsed_url ← py_urlparse E url;
  let path_ext := OsPath.splitext_ext (path parsed_url) in
  let file_extension := if String.eqb path_ext "" then ".jpg" else path_ext in
  let filename := py_str scholar_id +:+ "_" +:+ name_clean +:+ file_extension in
  Ok (os_path_join OUTPUT_DIR filename).

(** [not url or not isinstance(url, str) or url.strip() == ''] *)
Definition no_image_url (E : Env) (url : pyval) : result bool :=
  if negb (truthy url) then Ok true
  else if negb (is_str url) then Ok true
  else stripped ← py_strip E url; Ok (String.eqb stripped "").

Definition download_image (E : Env) (row : gmap string pyval) : M (option string) :=
  let url := row_get row "image_url" (VStr "") in
  let scholar_id := row_get row "id" (VStr "") in
  let name := row_get row "name" (VStr "unknown") in
  let year := row_get row "year" (VStr "") in
  missing ← lift (no_image_url E url);
  if (missing : bool) then
    log WARNING ("No image URL for scholar: " +:+ py_str name);;
    ret None
  else
    filepath ← lift (artifact_path E url scholar_id name);
    present ← os_path_exists filepath;
    if (present : bool) then
      log INFO ("Image already exists for " +:+ py_str name +:+ ", skipping download");;
      ret (Some filepath)
    else
      urls_to_try ← lift (generate_alternative_urls E url scholar_id year);
      let s := create_session in
      try_urls E s name filepath 0 (length urls_to_try) urls_to_try.

End DownloadPhotos.

(** ** dns_resolver_download.py *)
Module DnsResolverDownload.

Definition OUTPUT_DIR : string := "scholar_photos_dns".
(** [logging.FileHandler("dns_download.log")] *)
Definition LOG_FILE : string := "dns_download.log".

Definition DNS_SERVERS : list (string * option (list string)) :=
  [ ("Google DNS", Some ["8.8.8.8"; "8.8.4.4"]);
    ("Cloudflare DNS", Some ["1.1.1.1"; "1.0.0.1"]);
    ("OpenDNS", Some ["208.67.222.222"; "208.67.220.220"]);
    ("Quad9", Some ["9.9.9.9"; "149.112.112.112"]);
    ("Default DNS", None) ].

(** [resolver.resolve(domain, 'A')] with [resolver.nameservers = servers] *)
Definition resolve_A (E : Env) (servers : list string) (domain : string)
  : M (list string) :=
  fun w => (resolver_resolve E (trace w) servers domain,
            World (files w) (trace w ++ [DnsQuery servers domain])).

(** [socket.gethostbyname(domain)] *)
Definition socket_gethostbyname (E : Env) (domain : string) : M string :=
  fun w => (gethostbyname E (trace w) domain,
            World (files w) (trace w ++ [GetHostByName domain])).

(** [if dns_servers:] is false for [None] and for an empty list. *)
Definition custom_servers (dns_servers : option (list string)) : option (list string) :=
  match dns_servers with
  | Some (a :: l) => Some (a :: l)
  | _ => None
  end.

(** Returns the IP address, or [None] when resolution failed. *)
Definition resolve_domain_with_dns (E : Env) (domain : string)
    (dns_servers : option (list string)) : M (option string) :=
  match custom_servers dns_servers with
  | Some servers =>
      try_except
        (answers ← resolve_A E servers domain;
         match answers with
         | first :: _ => ret (Some first)
         | [] => ret None
         end)
        any_exception
        (fun e =>
           log WARNING ("Failed to resolve " +:+ domain
                        +:+ " with custom DNS servers: " +:+ exc_msg e);;
           ret None)
  | None =>
      try_except
        (ip_address ← socket_gethostbyname E domain;
         ret (Some ip_address))
        is_gaierror
        (fun e =>
           log WARNING ("Failed to resolve " +:+ domain
                        +:+ " with default DNS: " +:+ exc_msg e);;
           ret None)
  end.

(** [requests.get(ip_url, headers={'Host': domain}, timeout=.., stream=True)] *)
Definition requests_get_op (E : Env) (ip_url domain : string) : M response :=
  fun w => (requests_get E (trace w) ip_url domain,
            World (files w) (trace w ++ [RequestsGet ip_url domain])).

(** The rest of [download_with_custom_dns] once [requests.get] has
    returned: status check, content type check, save.  In this script the
    loop over the chunks skips the empty ones, which leaves the written
    content the same. *)
Definition handle_response (E : Env) (url output_path dns_name : string)
    (response : response) : M bool :=
  if negb (status_code response =? 200) then
    log WARNING ("Failed to download " +:+ url +:+ " using " +:+ dns_name
                 +:+ ": HTTP " +:+ pretty (status_code response));;
    ret false
  else if negb (Str.startswith "image/" (content_type response)) then
    log WARNING ("URL " +:+ url +:+ " returned non-image content type: "
                 +:+ content_type response);;
    ret false
  else
    save_stream E output_path response;;
    log INFO ("Successfully downloaded " +:+ url +:+ " using " +:+ dns_name);;
    ret true.

(** The body of the [try] block of [download_with_custom_dns]. *)
Definition download_body (E : Env) (url output_path dns_name : string)
    (dns_servers : option (list string)) : M bool :=
  parsed_url ← lift (urlparse E url);
  let domain := netloc parsed_url in
  ip ← resolve_domain_with_dns E domain dns_servers;
  match ip with
  | None =>
      log WARNING ("Could not resolve " +:+ domain +:+ " using " +:+ dns_name);;
      ret false
  | Some ip_address =>
      if String.eqb ip_address "" then
        log WARNING ("Could not resolve " +:+ domain +:+ " using " +:+ dns_name);;
        ret false
      else
        log INFO ("Resolved " +:+ domain +:+ " to " +:+ ip_address
                  +:+ " using " +:+ dns_name);;
        let ip_url := Str.replace domain ip_address url in
        response ← requests_get_op E ip_url domain;
        handle_response E url output_path dns_name response
  end.

Definition download_with_custom_dns (E : Env) (url output_path dns_name : string)
    (dns_servers : option (list string)) : M bool :=
  try_except
    (download_body E url output_path dns_name dns_servers)
    any_exception
    (fun e =>
       log ERROR ("Error downloading " +:+ url +:+ " using " +:+ dns_name
                  +:+ ": " +:+ exc_msg e);;
       ret false).

(** The dictionary every exit of [process_scholar] builds. *)
Definition outcome (scholar_id name : pyval) (success : bool) (successful_dns : pyval)
  : gmap string pyval :=
  <["scholar_id" := scholar_id]>
    (<["name" := name]>
       (<["success" := VBool success]>
          (<["successful_dns" := successful_dns]> ∅))).

(** [for dns_name, dns_servers in DNS_SERVERS], followed by the failure
    exit below the loop. *)
Fixpoint try_dns_servers (E : Env) (url filepath : string) (scholar_id name : pyval)
    (servers : list (string * option (list string))) : M (gmap string pyval) :=
  match servers with
  | [] =>
      log ERROR ("All download attempts failed for " +:+ py_str name);;
      ret (outcome scholar_id name false VNone)
  | (dns_name, dns_servers) :: rest =>
      log INFO ("Attempting to download image for " +:+ py_str name
                +:+ " using " +:+ dns_name);;
      success ← download_with_custom_dns E url filepath dns_name dns_servers;
      if (success : bool)
      then ret (outcome scholar_id name true (VStr dns_name))
      else try_dns_servers E url filepath scholar_id name rest
  end.

(** [not url or url.strip() == ''] *)
Definition no_image_url (E : Env) (url : pyval) : result bool :=
  if negb (truthy url) then Ok true
  else stripped ← py_strip E url; Ok (String.eqb stripped "").

(** The file name part of [process_scholar], up to [filepath]. *)
Definition artifact_path (scholar_id name : pyval) : result string :=
  r1 ← py_replace name " " "_";
  let name_clean := Str.replace "," "" (Str.replace "." "" r1) in
  let filename := py_str scholar_id +:+ "_" +:+ name_clean +:+ ".jpg" in
  Ok (os_path_join OUTPUT_DIR filename).

Definition process_scholar (E : Env) (row : gmap string pyval)
  : M (gmap string pyval) :=
  let url := row_get row "image_url" (VStr "") in
  let scholar_id := row_get row "id" (VStr "") in
  let name := row_get row "name" (VStr "unknown") in
  missing ← lift (no_image_url E url);
  if (missing : bool) then
    log WARNING ("No image URL for scholar: " +:+ py_str name);;
    ret (outcome scholar_id name false VNone)
  else
    filepath ← lift (artifact_path scholar_id name);
    present ← os_path_exists filepath;
    if (present : bool) then
      log INFO ("Image already exists for " +:+ py_str name +:+ ", skipping download");;
      ret (outcome scholar_id name true (VStr "Already downloaded"))
    else
      try_dns_servers E (py_str url) filepath scholar_id name DNS_SERVERS.

End DnsResolverDownload.

(** ** dns_resolver_download.py, the report of [main]

    [main] submits [process_scholar] for every row to a thread pool and
    then walks the futures in the order of submission.  What is embedded
    here is that walk and the statistics computed from its results; each
    future is given by what its task returned or raised. *)
Module DnsResolverMain.

(** What ends [main] before the report: the exception of a task, re-raised
    by [future.result()], or the [KeyError] of a missing dictionary key. *)
Inductive abort :=
  | TaskRaised (e : exc)
  | KeyError (key : string).

(** [d[key]] *)
Definition item (d : gmap string pyval) (key : string) : abort + pyval :=
  match d !! key with
  | Some v => inr v
  | None => inl (KeyError key)
  end.

(** [future.result()] *)
Definition future_result (future : result (gmap string pyval))
  : abort + gmap string pyval :=
  match future with
  | Ok d => inr d
  | Raise e => inl (TaskRaised e)
  end.

(** [for future in futures: result = future.result();
    results.append(result); if result['success']: successful_downloads += 1] *)
Fixpoint collect (futures : list (result (gmap string pyval)))
    (results : list (gmap string pyval)) (successful_downloads : nat)
  : abort + (list (gmap string pyval) * nat) :=
  match futures with
  | [] => inr (results, successful_downloads)
  | future :: rest =>
      match future_result future with
      | inl a => inl a
      | inr result =>
          match item result "success" with
          | inl a => inl a
          | inr success =>
              collect rest (results ++ [result])
                (if truthy success then S successful_downloads
                 else successful_downloads)
          end
      end
  end.

(** [v == dns_name] for a string [dns_name] *)
Definition py_eq_str (v : pyval) (dns_name : string) : bool :=
  match v with
  | VStr s => String.eqb s dns_name
  | _ => false
  end.

(** [sum(1 for r in results if r['successful_dns'] == dns_name)] *)
Fixpoint count_dns (dns_name : string) (results : list (gmap string pyval))
  : abort + nat :=
  match results with
  | [] => inr 0%nat
  | r :: rest =>
      match item r "successful_dns" with
      | inl a => inl a
      | inr v =>
          match count_dns dns_name rest with
          | inl a => inl a
          | inr n => inr (if py_eq_str v dns_name then S n else n)
          end
      end
  end.

(** [for dns_name, _ in DNS_SERVERS: dns_statistics[dns_name] = sum(..)] *)
Fixpoint dns_statistics (servers : list (string * option (list string)))
    (results : list (gmap string pyval)) (stats : gmap string nat)
  : abort + gmap string nat :=
  match servers with
  | [] => inr stats
  | (dns_name, _) :: rest =>
      match count_dns dns_name results with
      | inl a => inl a
      | inr n => dns_statistics rest results (<[dns_name := n]> stats)
      end
  end.

End DnsResolverMain.

(** ** Stub environments

    Concrete runtimes to run the scripts on: ASCII character classes, a
    parser for URLs of the plain shape [scheme://host/path] (no query,
    fragment, parameters or dot segments, on which it agrees with
    [urllib.parse]), a writable artifact directory and a network that is
    down unless a field is overridden. *)
Module Stub.

Definition ascii_isspace (c : ascii) : bool :=
  let n := nat_of_ascii c in
  ((9 <=? n) && (n <=? 13) || (28 <=? n) && (n <=? 32))%nat.

Definition ascii_isword (c : ascii) : bool :=
  let n := nat_of_ascii c in
  ((48 <=? n) && (n <=? 57) || (65 <=? n) && (n <=? 90)
   || (97 <=? n) && (n <=? 122) || (n =? 95))%nat.

(** Splits at the first occurrence of [sep]. *)
Fixpoint split_first (sep s : string) : option (string * string) :=
  match s with
  | EmptyString => None
  | String c s' =>
      if String.prefix sep s
      then Some (EmptyString, s)
      else match split_first sep s' with
           | Some (a, b) => Some (String c a, b)
           | None => None
           end
  end.

Definition plain_urlparse (u : string) : result parsed_url :=
  match split_first "://" u with
  | Some (_, rest) =>
      let after := Str.tail (Str.tail (Str.tail rest)) in
      match split_first "/" after with
      | Some (host, p) => Ok (ParseResult host p)
      | None => Ok (ParseResult after "")
      end
  | None => Ok (ParseResult "" u)
  end.

Definition plain_urljoin (base rel : string) : result string := Ok (base +:+ rel).

Definition connection_error : exc := Exc RequestException "ConnectionError".

Definition offline (slot : string -> list string -> nat) : Env :=
  {| set_slot := slot;
     isspace := ascii_isspace;
     isword := ascii_isword;
     urlparse := plain_urlparse;
     urljoin := plain_urljoin;
     open_error := fun _ => None;
     resolver_resolve := fun _ _ _ => Raise (Exc DNSException "NoNameservers");
     gethostbyname := fun _ _ => Raise (Exc gaierror "Name or service not known");
     requests_get := fun _ _ _ => Raise connection_error;
     session_get := fun _ _ _ => Raise connection_error |}.

Definition with_network (E : Env)
    (resolve : list event -> list string -> string -> result (list string))
    (byname : list event -> string -> result string)
    (get : list event -> string -> string -> result response)
    (sget : session -> list event -> string -> result response) : Env :=
  {| set_slot := set_slot E;
     isspace := isspace E;
     isword := isword E;
     urlparse := urlparse E;
     urljoin := urljoin E;
     open_error := open_error E;
     resolver_resolve := resolve;
     gethostbyname := byname;
     requests_get := get;
     session_get := sget |}.

Definition empty_world : world := World ∅ [].

End Stub.

(** ** Sample records, responses and networks *)

(** A record whose re-rooted URLs collapse onto the original URL and onto
    the first template pattern of each base: 13 candidates are built, 9 are
    returned. *)
Definition collapsing_url : string :=
  "https://scholars.westpac.com.au/2022/wsch_scholarhs_42_480x480.jpg".

(** The artifact of Jane Doe is on disk from an earlier run. *)
Definition jane_on_disk : world :=
  World {[ "scholar_photos_dns/42_Jane_Doe.jpg" := "JFIF";
           "scholar_photos/42_Jane_Doe.jpg" := "JFIF" ]} [].

Definition jane : gmap string pyval :=
  {[ "id" := VStr "42"; "name" := VStr "Jane Doe";
     "image_url" := VStr "https://origin/a/b.jpg"; "year" := VStr "2022" ]}.



(** [socket.gethostbyname] encodes the host name with the [idna] codec
    before it asks anyone: a label that is empty or longer than 63
    characters raises [UnicodeError], which is not a [gaierror]. *)
Module Idna.

Fixpoint labels_from (s cur : string) : list string :=
  match s with
  | EmptyString => [Str.rev_string cur ""]
  | String c s' =>
      if Ascii.eqb c "." then Str.rev_string cur "" :: labels_from s' ""
      else labels_from s' (String c cur)
  end.

Fixpoint labels_ok (ls : list string) : bool :=
  match ls with
  | [] => true
  | [final] => (String.length final <? 64)%nat
  | l :: rest => (0 <? String.length l)%nat && (String.length l <? 64)%nat && labels_ok rest
  end.

Definition gethostbyname_offline (t : list event) (host : string) : result string :=
  if labels_ok (labels_from host "")
  then Raise (Exc gaierror "Name or service not known")
  else Raise (Exc UnicodeError "encoding with 'idna' codec failed (UnicodeError: label empty or too long)").

Definition env : Env :=
  Stub.with_network (Stub.offline PySet.first_seen)
    (fun _ _ _ => Raise (Exc DNSException "NoNameservers"))
    gethostbyname_offline
    (fun _ _ _ => Raise Stub.connection_error)
    (fun _ _ _ => Raise Stub.connection_error).

End Idna.

(** A network in which every name resolves to 203.0.113.7 and every request
    is answered with [r]. *)
Definition answering (r : response) : Env :=
  Stub.with_network (Stub.offline PySet.first_seen)
    (fun _ _ _ => Ok ["203.0.113.7"])
    (fun _ _ => Ok "203.0.113.7")
    (fun _ _ _ => Ok r)
    (fun _ _ _ => Ok r).


(** The named resolvers are unreachable, the system resolver works and the
    origin serves the photo. *)
Definition only_default_resolves : Env :=
  Stub.with_network (Stub.offline PySet.first_seen)
    (fun _ _ _ => Raise (Exc DNSException "LifetimeTimeout"))
    (fun _ _ => Ok "203.0.113.7")
    (fun _ _ _ => Ok (Response 200 (Some "image/jpeg") ["JF"; "IF"] None))
    (fun _ _ _ => Raise Stub.connection_error).


(** A row read from a CSV line whose image URL cell is empty. *)
Definition row_without_url : gmap string pyval :=
  {[ "id" := VNum true "42"; "name" := VStr "Jane Doe"; "image_url" := NaN;
     "year" := VNum true "2022" ]}.

(** The origin serves a two-chunk JPEG to every request. *)
Definition photo : response :=
  Response 200 (Some "image/jpeg") ["JF"; "IF"] None.

(** The same runtime over an artifact directory that cannot be written:
    every [open(.., 'wb')] raises [OSError]. *)
Definition read_only (E : Env) : Env :=
  {| set_slot := set_slot E;
     isspace := isspace E;
     isword := isword E;
     urlparse := urlparse E;
     urljoin := urljoin E;
     open_error := fun _ => Some (Exc OSError "[Errno 13] Permission denied");
     resolver_resolve := resolver_resolve E;
     gethostbyname := gethostbyname E;
     requests_get := requests_get E;
     session_get := session_get E |}.

(** The results of three runs over Jane Doe's record: resolved by the
    system resolver, skipped because the artifact is on disk, failed with
    the network down. *)
Definition sample_results : list (gmap string pyval) :=
  [ (DnsResolverDownload.process_scholar only_default_resolves jane Stub.empty_world).1;
    (DnsResolverDownload.process_scholar (Stub.offline PySet.first_seen) jane
       jane_on_disk).1;
    (DnsResolverDownload.process_scholar (Stub.offline PySet.first_seen) jane
       Stub.empty_world).1 ]
  ≫= (fun r => match r with Ok d => [d] | Raise _ => [] end).

(** ** Notions used in the statements *)

(** The test [download_image] applies: [raise_for_status] passes and the
    content type starts with [image/]. *)
Definition photos_accepts (r : response) : bool :=
  negb ((400 <=? status_code r) && (status_code r <? 600))
  && Str.startswith "image/" (content_type r).

(** The test [download_with_custom_dns] applies: status 200 exactly and a
    content type that starts with [image/]. *)
Definition dns_accepts (r : response) : bool :=
  (status_code r =? 200) && Str.startswith "image/" (content_type r).

Definition after (w : world) (evs : list event) : world :=
  World (files w) (trace w ++ evs).

(** One turn of the loop of [process_scholar]: the log record, then the
    download under that strategy. *)
Definition turn (E : Env) (url filepath : string) (name : pyval)
    (s : string * option (list string)) (w : world) : result bool * world :=
  DnsResolverDownload.download_with_custom_dns E url filepath s.1 s.2
    (after w [Log INFO ("Attempting to download image for " +:+ py_str name
                        +:+ " using " +:+ s.1)]).

(** The strategies of the list were tried one after the other, each from
    the world the one before left, and each failed. *)
Inductive failed_in_order (E : Env) (url filepath : string) (name : pyval) :
    list (string * option (list string)) -> world -> world -> Prop :=
  | failed_nil w : failed_in_order E url filepath name [] w w
  | failed_cons s rest w w1 w2 :
      turn E url filepath name s w = (Ok false, w1) ->
      failed_in_order E url filepath name rest w1 w2 ->
      failed_in_order E url filepath name (s :: rest) w w2.


(** The one call [resolve_domain_with_dns] makes for a strategy: a query to
    the strategy's servers, or the system resolver when it has none. *)
Definition resolve_call (dns_servers : option (list string)) (domain : string) : event :=
  match DnsResolverDownload.custom_servers dns_servers with
  | Some servers => DnsQuery servers domain
  | None => GetHostByName domain
  end.

(** A dictionary some run of [process_scholar] has returned. *)
Definition is_outcome (d : gmap string pyval) : Prop :=
  exists E row w w', DnsResolverDownload.process_scholar E row w = (Ok d, w').

(** The records of a result list that count as downloaded, and those
    reported under a given resolver name. *)
Definition succeeded (d : gmap string pyval) : bool :=
  match d !! "success" with
  | Some v => truthy v
  | None => false
  end.

Definition resolved_via (dns_name : string) (d : gmap string pyval) : bool :=
  match d !! "successful_dns" with
  | Some v => DnsResolverMain.py_eq_str v dns_name
  | None => false
  end.





(** * Properties *)

(** ** The string and path helpers on Python's own examples *)

Example replace_examples :
  Str.replace "ab" "X" "abab" = "XX"
  /\ Str.replace "aa" "b" "aaa" = "ba"
  /\ Str.replace "" "-" "abc" = "-a-b-c-"
  /\ Str.replace " " "_" "Jane  Doe" = "Jane__Doe".
Proof. repeat split. Qed.

Example splitext_examples :
  OsPath.splitext_ext "/a/b.jpg" = ".jpg"
  /\ OsPath.splitext_ext "/a.b/c" = ""
  /\ OsPath.splitext_ext ".bashrc" = ""
  /\ OsPath.splitext_ext "a/..x.png" = ".png"
  /\ OsPath.splitext_ext "a." = ".".
Proof. repeat split. Qed.

Example os_path_join_examples :
  os_path_join "scholar_photos" "42_Jane_Doe.jpg" = "scholar_photos/42_Jane_Doe.jpg"
  /\ os_path_join "scholar_photos" "/tmp/x.jpg" = "/tmp/x.jpg"
  /\ os_path_join "a/" "b" = "a/b".
Proof. repeat split. Qed.

Example strip_examples :
  Str.strip Stub.ascii_isspace "  a b  " = "a b"
  /\ Str.strip Stub.ascii_isspace "   " = "".
Proof. repeat split. Qed.

(** ** Sets: [list(set(l))] has the elements of [l], each once *)
Section PySetFacts.
Variable slot : string -> list string -> nat.

Lemma insert_at_perm i x (s : list string) : PySet.insert_at i x s ≡ₚ x :: s.
Proof.
  unfold PySet.insert_at.
  rewrite <- Permutation_middle. by rewrite take_drop.
Qed.

Lemma add_NoDup (s : list string) x : NoDup s -> NoDup (PySet.add slot s x).
Proof.
  intros Hs. unfold PySet.add. case_decide; [done|].
  rewrite insert_at_perm. by constructor.
Qed.

Lemma elem_of_add (s : list string) x y : y ∈ PySet.add slot s x <-> y = x \/ y ∈ s.
Proof.
  unfold PySet.add. case_decide.
  - split; [by right | intros [->|]; done].
  - rewrite insert_at_perm. apply elem_of_cons.
Qed.

Lemma foldl_add_NoDup (l acc : list string) :
  NoDup acc -> NoDup (foldl (PySet.add slot) acc l).
Proof.
  revert acc. induction l as [|x l IH]; intros acc Hacc; simpl; [done|].
  apply IH. by apply add_NoDup.
Qed.

Lemma elem_of_foldl_add (l acc : list string) y :
  y ∈ foldl (PySet.add slot) acc l <-> y ∈ acc \/ y ∈ l.
Proof.
  revert acc. induction l as [|x l IH]; intros acc; simpl.
  - split; [by left | intros [|H]; [done | by apply elem_of_nil in H]].
  - rewrite IH, elem_of_add, elem_of_cons. tauto.
Qed.

Lemma list_set_NoDup (l : list string) : NoDup (PySet.list_set slot l).
Proof. apply foldl_add_NoDup. constructor. Qed.

Lemma elem_of_list_set (l : list string) y : y ∈ PySet.list_set slot l <-> y ∈ l.
Proof.
  unfold PySet.list_set. rewrite elem_of_foldl_add.
  split; [intros [H|]; [by apply elem_of_nil in H | done] | by right].
Qed.

End PySetFacts.

(** ** Candidate generation *)
Section Candidates.
Import DownloadPhotos.
Variable E : Env.

Lemma rebase_loop_extends url bases acc l :
  rebase_loop E url bases acc = Ok l -> exists more, l = acc ++ more.
Proof.
  revert acc. induction bases as [|b bases IH]; intros acc; simpl.
  - intros [= <-]. exists []. by rewrite app_nil_r.
  - destruct (py_urlparse E url) as [p|e]; simpl; [|done].
    destruct (urljoin E _ _) as [j|e]; simpl; [|done].
    intros H. apply IH in H as [more ->].
    exists (j :: more). by rewrite <- app_assoc.
Qed.

(** The list the function builds starts with the original URL. *)
Lemma alternatives_built_head url scholar_id year l :
  alternatives_built E url scholar_id year = Ok l ->
  head l = Some (py_str url).
Proof.
  unfold alternatives_built.
  destruct (rebase_loop E url ALTERNATIVE_BASE_URLS [py_str url]) as [a|e] eqn:Hr;
    simpl; [|done].
  apply rebase_loop_extends in Hr as [more ->].
  destruct (truthy year && truthy scholar_id).
  - intros [= <-]. reflexivity.
  - by intros [= <-].
Qed.

(** The function returns a list whenever the URL is a string that
    [urlparse] and [urljoin] accept. *)
Lemma generate_alternative_urls_returns u scholar_id year :
  (forall s, exists p, urlparse E s = Ok p) ->
  (forall b r, exists j, urljoin E b r = Ok j) ->
  exists l, generate_alternative_urls E (VStr u) scholar_id year = Ok l.
Proof.
  intros Hp Hj. unfold generate_alternative_urls.
  destruct (negb (truthy (VStr u))); [by eexists|].
  unfold alternatives_built.
  assert (forall bases acc, exists a, rebase_loop E (VStr u) bases acc = Ok a) as Hloop.
  { induction bases as [|b bases IH]; intros acc; simpl; [by eexists|].
    destruct (Hp u) as [p ->]. simpl.
    match goal with |- context [urljoin E ?b ?r] =>
      destruct (Hj b r) as [j ->] end.
    simpl. apply IH. }
  destruct (Hloop ALTERNATIVE_BASE_URLS [py_str (VStr u)]) as [a ->].
  simpl. by eexists.
Qed.

(** Whatever the order of the set, the original URL is among the
    candidates returned. *)
Lemma generate_alternative_urls_contains_url u scholar_id year l :
  u <> "" ->
  generate_alternative_urls E (VStr u) scholar_id year = Ok l ->
  u ∈ l.
Proof.
  intros Hu. unfold generate_alternative_urls.
  assert (truthy (VStr u) = true) as -> by (by destruct u).
  simpl.
  destruct (alternatives_built E (VStr u) scholar_id year) as [a|e] eqn:Hb;
    simpl; [|done].
  intros [= <-]. apply elem_of_list_set.
  apply alternatives_built_head in Hb.
  destruct a as [|x a]; simplify_eq/=. by left.
Qed.

End Candidates.

(** C2. Whatever the URL, the id, the year and the order of the set, a list
    returned by [generate_alternative_urls] holds no string twice (strings
    are compared exactly, case included). *)
Theorem generate_alternative_urls_NoDup (E : Env) (url scholar_id year : pyval)
    (l : list string) :
  DownloadPhotos.generate_alternative_urls E url scholar_id year = Ok l ->
  NoDup l.
Proof.
  unfold DownloadPhotos.generate_alternative_urls.
  destruct (negb (truthy url)).
  - intros [= <-]. constructor.
  - destruct (DownloadPhotos.alternatives_built E url scholar_id year) as [a|e];
      simpl; [|done].
    intros [= <-]. apply list_set_NoDup.
Qed.

Lemma generate_alternative_urls_NoDup_witness :
  exists built l,
    DownloadPhotos.alternatives_built (Stub.offline PySet.first_seen)
      (VStr collapsing_url) (VStr "42") (VStr "2022") = Ok built
    /\ length built = 13%nat
    /\ DownloadPhotos.generate_alternative_urls (Stub.offline PySet.first_seen)
         (VStr collapsing_url) (VStr "42") (VStr "2022") = Ok l
    /\ length l = 9%nat
    /\ NoDup l.
Proof.
  eexists. eexists. split; [vm_compute; reflexivity|].
  split; [reflexivity|].
  split; [vm_compute; reflexivity|].
  split; [reflexivity|].
  apply (generate_alternative_urls_NoDup (Stub.offline PySet.first_seen)
           (VStr collapsing_url) (VStr "42") (VStr "2022")).
  vm_compute. reflexivity.
Defined.

(** Under the order that keeps first-seen places, a non-empty list keeps
    its first element through [list(set(..))]. *)
Lemma foldl_add_first_seen_head (l acc : list string) a :
  head (foldl (PySet.add PySet.first_seen) (a :: acc) l) = Some a.
Proof.
  revert acc. induction l as [|x l IH]; intros acc; simpl; [done|].
  unfold PySet.add at 2. case_decide; [apply IH|].
  unfold PySet.insert_at, PySet.first_seen.
  rewrite firstn_all, skipn_all. simpl. apply IH.
Qed.

Lemma list_set_first_seen_head (l : list string) a :
  head (PySet.list_set PySet.first_seen (a :: l)) = Some a.
Proof.
  unfold PySet.list_set. simpl. unfold PySet.add at 2.
  case_decide as H; [by apply elem_of_nil in H|].
  apply foldl_add_first_seen_head.
Qed.

(** C1. A record with a non-empty canonical URL, run where the set
    enumerates its newest key first: the list [generate_alternative_urls]
    returns starts with the last template pattern, not with the canonical
    URL, which comes last.  Where the set happens to keep first-seen places
    the same call returns the candidates in the order they were built. *)
Theorem generate_alternative_urls_set_order_leaks :
  DownloadPhotos.generate_alternative_urls (Stub.offline PySet.newest_first)
    (VStr "https://scholars.westpac.com.au/photos/jane.jpg") (VStr "42") (VStr "2022")
  = Ok [ "https://www.westpac.com.au/content/dam/public/wsch/images/scholars/profile_2022_42.jpg";
         "https://www.westpac.com.au/content/dam/public/wsch/images/scholars_2022/profile_42.jpg";
         "https://www.westpac.com.au/content/dam/public/wsch/images/2022/wsch_scholarhs_42_480x480.jpg";
         "https://www.westpac.com.au/about-westpac/sustainability/initiatives-for-you/westpac-scholars/scholars/profile_2022_42.jpg";
         "https://www.westpac.com.au/about-westpac/sustainability/initiatives-for-you/westpac-scholars/scholars_2022/profile_42.jpg";
         "https://www.westpac.com.au/about-westpac/sustainability/initiatives-for-you/westpac-scholars/2022/wsch_scholarhs_42_480x480.jpg";
         "https://scholars.westpac.com.au/scholars/profile_2022_42.jpg";
         "https://scholars.westpac.com.au/scholars_2022/profile_42.jpg";
         "https://scholars.westpac.com.au/2022/wsch_scholarhs_42_480x480.jpg";
         "https://www.westpac.com.au/content/dam/public/wsch/images/photos/jane.jpg";
         "https://www.westpac.com.au/about-westpac/sustainability/initiatives-for-you/westpac-scholars/photos/jane.jpg";
         "https://scholars.westpac.com.au/photos/jane.jpg" ]
  /\ DownloadPhotos.generate_alternative_urls (Stub.offline PySet.first_seen)
       (VStr "https://scholars.westpac.com.au/photos/jane.jpg") (VStr "42") (VStr "2022")
     = Ok [ "https://scholars.westpac.com.au/photos/jane.jpg";
            "https://www.westpac.com.au/about-westpac/sustainability/initiatives-for-you/westpac-scholars/photos/jane.jpg";
            "https://www.westpac.com.au/content/dam/public/wsch/images/photos/jane.jpg";
            "https://scholars.westpac.com.au/2022/wsch_scholarhs_42_480x480.jpg";
            "https://scholars.westpac.com.au/scholars_2022/profile_42.jpg";
            "https://scholars.westpac.com.au/scholars/profile_2022_42.jpg";
            "https://www.westpac.com.au/about-westpac/sustainability/initiatives-for-you/westpac-scholars/2022/wsch_scholarhs_42_480x480.jpg";
            "https://www.westpac.com.au/about-westpac/sustainability/initiatives-for-you/westpac-scholars/scholars_2022/profile_42.jpg";
            "https://www.westpac.com.au/about-westpac/sustainability/initiatives-for-you/westpac-scholars/scholars/profile_2022_42.jpg";
            "https://www.westpac.com.au/content/dam/public/wsch/images/2022/wsch_scholarhs_42_480x480.jpg";
            "https://www.westpac.com.au/content/dam/public/wsch/images/scholars_2022/profile_42.jpg";
            "https://www.westpac.com.au/content/dam/public/wsch/images/scholars/profile_2022_42.jpg" ].
Proof. split; vm_compute; reflexivity. Qed.

(** ** Running the scripts: unfolding the state and exception plumbing *)

Ltac run_step :=
  unfold mbind, M_bind, mret, M_ret, bind, ret, raise, lift, log, emit,
    try_except, os_path_exists, result_bind, result_ret, rbind in *.

Ltac run := repeat (run_step; cbn [fst snd files trace] in * ).

Lemma network_calls_app (t1 t2 : list event) :
  network_calls (t1 ++ t2) = network_calls t1 ++ network_calls t2.
Proof. unfold network_calls. apply List.filter_app. Qed.

Lemma network_calls_log t lvl msg :
  network_calls (t ++ [Log lvl msg]) = network_calls t.
Proof. rewrite network_calls_app. simpl. apply app_nil_r. Qed.

(** ** Records that need no download and records without a URL *)













(** ** The resolver *)

(** With a list of name servers every exception is turned into [None]. *)
Lemma resolve_with_servers_returns (E : Env) (domain a : string) (l : list string)
    (w : world) :
  exists ip w',
    DnsResolverDownload.resolve_domain_with_dns E domain (Some (a :: l)) w = (Ok ip, w').
Proof.
  unfold DnsResolverDownload.resolve_domain_with_dns, DnsResolverDownload.resolve_A.
  simpl. run.
  destruct (resolver_resolve E (trace w) (a :: l) domain) as [[|first rest]|e];
    simpl; eauto.
Qed.

(** With the system resolver a [gaierror] is turned into [None]; any other
    exception of [socket.gethostbyname] leaves the function. *)
Lemma resolve_default_outcome (E : Env) (domain : string) (w : world) :
  DnsResolverDownload.resolve_domain_with_dns E domain None w
  = match gethostbyname E (trace w) domain with
    | Ok ip => (Ok (Some ip), World (files w) (trace w ++ [GetHostByName domain]))
    | Raise e =>
        if is_gaierror e
        then (Ok None,
              World (files w)
                (trace w ++ [GetHostByName domain;
                             Log WARNING ("Failed to resolve " +:+ domain
                                          +:+ " with default DNS: " +:+ exc_msg e)]))
        else (Raise e, World (files w) (trace w ++ [GetHostByName domain]))
    end.
Proof.
  unfold DnsResolverDownload.resolve_domain_with_dns,
    DnsResolverDownload.socket_gethostbyname.
  simpl. run.
  destruct (gethostbyname E (trace w) domain) as [ip|e]; simpl; [done|].
  destruct (is_gaierror e); [|done].
  by rewrite <- app_assoc.
Qed.

(** C5. The host name of [https://scholars..westpac.com.au/a.jpg] under the
    "Default DNS" strategy: the [UnicodeError] of [socket.gethostbyname]
    passes the [except socket.gaierror] clause and reaches the caller. *)
Theorem resolve_default_propagates_unicode_error :
  urlparse Idna.env "https://scholars..westpac.com.au/a.jpg"
  = Ok (ParseResult "scholars..westpac.com.au" "/a.jpg")
  /\ DnsResolverDownload.resolve_domain_with_dns Idna.env "scholars..westpac.com.au" None
       Stub.empty_world
     = (Raise (Exc UnicodeError
                 "encoding with 'idna' codec failed (UnicodeError: label empty or too long)"),
        World ∅ [GetHostByName "scholars..westpac.com.au"]).
Proof. split; vm_compute; reflexivity. Qed.

(** ** Validation of a response *)




(** ** The ladder of DNS strategies *)
Section Ladder.
Import DnsResolverDownload.
Variable E : Env.

(** [download_with_custom_dns] always returns a boolean. *)
Lemma download_with_custom_dns_returns url output_path dns_name dns_servers w :
  exists b w',
    download_with_custom_dns E url output_path dns_name dns_servers w = (Ok b, w').
Proof.
  unfold download_with_custom_dns, try_except.
  destruct (download_body E url output_path dns_name dns_servers w) as [[b|e] w1];
    simpl; eauto.
Qed.

Variables (url filepath : string) (scholar_id name : pyval).

(** One turn of the loop, then the rest of it. *)
Lemma try_dns_servers_cons dns_name dns_servers rest w b w1 :
  turn E url filepath name (dns_name, dns_servers) w = (Ok b, w1) ->
  try_dns_servers E url filepath scholar_id name ((dns_name, dns_servers) :: rest) w
  = if b then (Ok (outcome scholar_id name true (VStr dns_name)), w1)
    else try_dns_servers E url filepath scholar_id name rest w1.
Proof.
  unfold turn, after. simpl. intros Hturn. run. rewrite Hturn. by destruct b.
Qed.

(** The loop stops at the first strategy whose download succeeds and
    reports its name; when none succeeds, every strategy was tried. *)
Lemma try_dns_servers_first_success servers w :
  (exists pre s post w1 w2,
      servers = pre ++ s :: post
      /\ failed_in_order E url filepath name pre w w1
      /\ turn E url filepath name s w1 = (Ok true, w2)
      /\ try_dns_servers E url filepath scholar_id name servers w
         = (Ok (outcome scholar_id name true (VStr s.1)), w2))
  \/ (exists w1,
        failed_in_order E url filepath name servers w w1
        /\ try_dns_servers E url filepath scholar_id name servers w
           = (Ok (outcome scholar_id name false VNone),
              after w1 [Log ERROR ("All download attempts failed for "
                                   +:+ py_str name)])).
Proof.
  revert w. induction servers as [|[dns_name dns_servers] rest IH]; intros w.
  - right. exists w. split; [constructor | reflexivity].
  - destruct (download_with_custom_dns_returns url filepath dns_name dns_servers
                (after w [Log INFO ("Attempting to download image for "
                                    +:+ py_str name +:+ " using " +:+ dns_name)]))
      as (b & w1 & Hturn).
    change (turn E url filepath name (dns_name, dns_servers) w = (Ok b, w1)) in Hturn.
    rewrite (try_dns_servers_cons _ _ rest _ _ _ Hturn). destruct b.
    + left. exists [], (dns_name, dns_servers), rest, w, w1.
      split; [done|]. split; [constructor|]. split; [exact Hturn | done].
    + destruct (IH w1) as [(pre & s & post & wa & wb & -> & Hpre & Hs & Hrun)
                          |(wa & Hall & Hrun)].
      * left. exists ((dns_name, dns_servers) :: pre), s, post, wa, wb.
        split; [done|]. split; [by econstructor|]. split; [exact Hs | exact Hrun].
      * right. exists wa. split; [by econstructor | exact Hrun].
Qed.

End Ladder.



(** ** Where the body is written *)
Section InPlace.
Variable E : Env.

Lemma save_stream_files p r w res w' :
  save_stream E p r w = (res, w') ->
  (files w' = files w /\ trace w' = trace w /\ exists e, res = Raise e)
  \/ (files w' = <[p := String.concat "" (body_chunks r)]> (files w)
      /\ trace w' = trace w
      /\ res = match body_error r with Some e => Raise e | None => Ok tt end).
Proof.
  unfold save_stream. destruct (open_error E p) as [e|].
  - intros [= <- <-]. left. eauto.
  - destruct (body_error r) as [e|]; intros [= <- <-]; right; done.
Qed.

(** The files after [handle_response] of the DNS script. *)
Lemma dns_handle_response_files url output_path dns_name r w res w' :
  DnsResolverDownload.handle_response E url output_path dns_name r w = (res, w') ->
  (files w' = files w /\ res <> Ok true)
  \/ (dns_accepts r = true
      /\ files w' = <[output_path := String.concat "" (body_chunks r)]> (files w)
      /\ (res = Ok true <-> body_error r = None)).
Proof.
  unfold DnsResolverDownload.handle_response, dns_accepts.
  destruct (status_code r =? 200); simpl.
  2:{ intros [= <- <-]. left. done. }
  destruct (Str.startswith "image/" (content_type r)); simpl.
  2:{ intros [= <- <-]. left. done. }
  run. destruct (save_stream E output_path r w) as [[[]|e] w1] eqn:Hsave;
    intros [= <- <-]; simpl.
  - apply save_stream_files in Hsave as [(_ & _ & e & He)|(Hf & _ & Hres)]; [done|].
    right. split; [done|]. split; [done|].
    destruct (body_error r); [done|]. done.
  - apply save_stream_files in Hsave as [(Hf & _ & _)|(Hf & _ & Hres)].
    + left. done.
    + right. split; [done|]. split; [done|].
      destruct (body_error r); [|done]. split; done.
Qed.

Lemma resolve_keeps_files domain dns_servers w res w' :
  DnsResolverDownload.resolve_domain_with_dns E domain dns_servers w = (res, w') ->
  files w' = files w.
Proof.
  unfold DnsResolverDownload.resolve_domain_with_dns,
    DnsResolverDownload.resolve_A, DnsResolverDownload.socket_gethostbyname.
  destruct (DnsResolverDownload.custom_servers dns_servers) as [servers|]; run.
  - destruct (resolver_resolve E (trace w) servers domain) as [[|a l]|e];
      intros [= <- <-]; done.
  - destruct (gethostbyname E (trace w) domain) as [ip|e].
    + intros [= <- <-]; done.
    + destruct (is_gaierror e); intros [= <- <-]; done.
Qed.

Lemma download_body_files url output_path dns_name dns_servers w res w' :
  DnsResolverDownload.download_body E url output_path dns_name dns_servers w
  = (res, w') ->
  (files w' = files w /\ res <> Ok true)
  \/ (exists r t ip_url host,
        requests_get E t ip_url host = Ok r
        /\ dns_accepts r = true
        /\ files w' = <[output_path := String.concat "" (body_chunks r)]> (files w)
        /\ (res = Ok true <-> body_error r = None)).
Proof.
  unfold DnsResolverDownload.download_body. run.
  destruct (urlparse E url) as [parsed|e]; [|intros [= <- <-]; left; done].
  destruct (DnsResolverDownload.resolve_domain_with_dns E (netloc parsed)
              dns_servers w) as [[ip|e] w1] eqn:Hres.
  2:{ apply resolve_keeps_files in Hres. intros [= <- <-]. left. done. }
  apply resolve_keeps_files in Hres.
  destruct ip as [ip_address|]; [|intros [= <- <-]; left; done].
  destruct (String.eqb ip_address ""); [intros [= <- <-]; left; done|].
  unfold DnsResolverDownload.requests_get_op. cbn [files trace].
  match goal with |- context [requests_get E ?t ?a ?b] =>
    destruct (requests_get E t a b) as [r|e] eqn:Hget end.
  2:{ intros [= <- <-]. left. done. }
  intros Hh. apply dns_handle_response_files in Hh as [[Hf Hne]|(Hacc & Hf & Hiff)].
  - left. simpl in Hf. by rewrite Hf.
  - right. do 4 eexists. split; [exact Hget|]. simpl in Hf. rewrite Hf, Hres. done.
Qed.

End InPlace.

(** ** One fetch, step by step *)
Section Fetch.
Variable E : Env.

(** [download_body] along its source text: the parse, the lookup, the test
    of the address, the request to the address the lookup returned, the
    handling of the response. *)
Lemma download_body_run url output_path dns_name dns_servers w :
  DnsResolverDownload.download_body E url output_path dns_name dns_servers w
  = match urlparse E url with
    | Raise e => (Raise e, w)
    | Ok p =>
        match DnsResolverDownload.resolve_domain_with_dns E (netloc p) dns_servers w with
        | (Raise e, w1) => (Raise e, w1)
        | (Ok None, w1) =>
            (Ok false,
             after w1 [Log WARNING ("Could not resolve " +:+ netloc p +:+ " using "
                                    +:+ dns_name)])
        | (Ok (Some ip), w1) =>
            if String.eqb ip "" then
              (Ok false,
               after w1 [Log WARNING ("Could not resolve " +:+ netloc p +:+ " using "
                                      +:+ dns_name)])
            else
              let resolved := Log INFO ("Resolved " +:+ netloc p +:+ " to " +:+ ip
                                        +:+ " using " +:+ dns_name) in
              let ip_url := Str.replace (netloc p) ip url in
              match requests_get E (trace w1 ++ [resolved]) ip_url (netloc p) with
              | Raise e => (Raise e, after w1 [resolved; RequestsGet ip_url (netloc p)])
              | Ok r =>
                  DnsResolverDownload.handle_response E url output_path dns_name r
                    (after w1 [resolved; RequestsGet ip_url (netloc p)])
              end
        end
    end.
Proof.
  unfold DnsResolverDownload.download_body, after. run.
  destruct (urlparse E url) as [p|e]; [|reflexivity].
  destruct (DnsResolverDownload.resolve_domain_with_dns E (netloc p) dns_servers w)
    as [[[ip|]|e] w1]; try reflexivity.
  destruct (String.eqb ip ""); [reflexivity|].
  unfold DnsResolverDownload.requests_get_op. cbn [files trace].
  rewrite <- !app_assoc. cbn [app].
  destruct (requests_get E _ _ _); reflexivity.
Qed.



End Fetch.




(** ** The outcome dictionary *)
Section Outcome.
Import DnsResolverDownload.
Variable E : Env.

Lemma outcome_dom scholar_id name success successful_dns :
  dom (outcome scholar_id name success successful_dns)
  = ({[ "scholar_id"; "name"; "success"; "successful_dns" ]} : gset string).
Proof.
  unfold outcome. rewrite !dom_insert_L, dom_empty_L. set_solver.
Qed.

Lemma outcome_fields scholar_id name success successful_dns :
  outcome scholar_id name success successful_dns !! "success" = Some (VBool success)
  /\ outcome scholar_id name success successful_dns !! "successful_dns"
     = Some successful_dns.
Proof. unfold outcome. split; by simplify_map_eq. Qed.

(** The two fields agree in every dictionary the loop returns. *)
Lemma try_dns_servers_agree url filepath scholar_id name servers w d w' :
  try_dns_servers E url filepath scholar_id name servers w = (Ok d, w') ->
  exists success successful_dns,
    d = outcome scholar_id name success successful_dns
    /\ (success = true <-> successful_dns <> VNone).
Proof.
  revert w. induction servers as [|[dns_name dns_servers] rest IH]; intros w; simpl.
  - intros [= <- <-]. exists false, VNone. split; [done|]. split; done.
  - run.
    match goal with |- context [download_with_custom_dns E ?a ?b ?c ?d0 ?w0] =>
      destruct (download_with_custom_dns_returns E a b c d0 w0) as (b0 & w1 & ->) end.
    destruct b0.
    + intros [= <- <-]. exists true, (VStr dns_name). split; [done|]. split; done.
    + apply IH.
Qed.

(** Whenever [process_scholar] returns, it returns a dictionary with the
    four keys in which [success] is [True] exactly when [successful_dns]
    is not [None]. *)
Lemma process_scholar_outcome_shape row w d w' :
  process_scholar E row w = (Ok d, w') ->
  dom d = ({[ "scholar_id"; "name"; "success"; "successful_dns" ]} : gset string)
  /\ exists success successful_dns,
       d !! "success" = Some (VBool success)
       /\ d !! "successful_dns" = Some successful_dns
       /\ (success = true <-> successful_dns <> VNone).
Proof.
  intros Hrun.
  assert (exists success successful_dns,
             d = outcome (row_get row "id" (VStr ""))
                   (row_get row "name" (VStr "unknown")) success successful_dns
             /\ (success = true <-> successful_dns <> VNone))
    as (success & successful_dns & -> & Hagree).
  { revert Hrun. unfold process_scholar. run.
    destruct (no_image_url E (row_get row "image_url" (VStr ""))) as [[]|e];
      [| |done].
    - intros [= <- <-]. exists false, VNone. split; [done|]. split; done.
    - destruct (artifact_path _ _) as [filepath|e]; [|done].
      destruct (bool_decide (is_Some (files w !! filepath))).
      + intros [= <- <-]. exists true, (VStr "Already downloaded").
        split; [done|]. split; done.
      + apply try_dns_servers_agree. }
  split; [apply outcome_dom|].
  exists success, successful_dns.
  destruct (outcome_fields (row_get row "id" (VStr ""))
              (row_get row "name" (VStr "unknown")) success successful_dns)
    as [-> ->].
  done.
Qed.

(** It returns for every row whose URL and name cells are strings. *)
Lemma process_scholar_returns_on_strings row w u nm :
  row_get row "image_url" (VStr "") = VStr u ->
  row_get row "name" (VStr "unknown") = VStr nm ->
  exists d w', process_scholar E row w = (Ok d, w').
Proof.
  intros Hu Hn. unfold process_scholar, no_image_url, artifact_path.
  generalize DNS_SERVERS. intros servers.
  rewrite Hu, Hn. simpl. run.
  destruct (negb (String.eqb u "")); simpl; [|eauto].
  destruct (String.eqb (Str.strip (isspace E) u) ""); [eauto|].
  match goal with |- context [bool_decide ?P] => destruct (bool_decide P) end;
    [eauto|].
  match goal with |- context [try_dns_servers E ?a ?b ?c ?d0 ?l ?w0] =>
    destruct (try_dns_servers_first_success E a b c d0 l w0)
      as [(pre & s & post & w1 & w2 & _ & _ & _ & ->)|(w1 & _ & ->)] end; eauto.
Qed.

End Outcome.

(** C10. On the row of an empty image URL cell (pandas stores NaN there)
    [process_scholar] returns no dictionary: [url.strip()] raises
    [AttributeError].  [download_image], which tests [isinstance(url, str)]
    first, reports the same row as a record without URL. *)
Theorem process_scholar_raises_on_nan_url :
  DnsResolverDownload.process_scholar (Stub.offline PySet.first_seen)
    row_without_url Stub.empty_world
  = (Raise (Exc AttributeError "object has no attribute 'strip'"), Stub.empty_world)
  /\ DownloadPhotos.download_image (Stub.offline PySet.first_seen)
       row_without_url Stub.empty_world
     = (Ok None, World ∅ [Log WARNING "No image URL for scholar: Jane Doe"]).
Proof. split; vm_compute; reflexivity. Qed.

(** * Further properties of the two download scripts *)

(** ** The candidate list, seen as a set *)
Section CandidateElements.
Import DownloadPhotos.
Variable E : Env.

Lemma rebase_loop_length url bases acc l :
  rebase_loop E url bases acc = Ok l ->
  length l = (length acc + length bases)%nat.
Proof.
  revert acc. induction bases as [|b bases IH]; intros acc; simpl.
  - intros [= <-]. lia.
  - destruct (py_urlparse E url) as [p|e]; simpl; [|done].
    destruct (urljoin E _ _) as [j|e]; simpl; [|done].
    intros H. apply IH in H. rewrite H, length_app. simpl. lia.
Qed.

Lemma pattern_loop_length scholar_id year bases acc :
  length (pattern_loop scholar_id year bases acc)
  = (length acc + 3 * length bases)%nat.
Proof.
  revert acc. induction bases as [|b bases IH]; intros acc; simpl; [lia|].
  rewrite IH, length_app. simpl. lia.
Qed.

Lemma alternatives_built_length url scholar_id year built :
  alternatives_built E url scholar_id year = Ok built ->
  length built = if truthy year && truthy scholar_id then 13%nat else 4%nat.
Proof.
  unfold alternatives_built.
  destruct (rebase_loop E url ALTERNATIVE_BASE_URLS [py_str url]) as [a|e] eqn:Hr;
    cbv [mbind result_bind rbind]; [|done].
  apply rebase_loop_length in Hr. simpl in Hr.
  destruct (truthy year && truthy scholar_id); intros Heq.
  - assert (length built
            = length (pattern_loop scholar_id year ALTERNATIVE_BASE_URLS a)) as ->
      by congruence.
    rewrite pattern_loop_length, Hr. reflexivity.
  - congruence.
Qed.

Lemma list_set_length_le slot (l : list string) :
  (length (PySet.list_set slot l) <= length l)%nat.
Proof.
  apply submseteq_length, NoDup_submseteq; [apply list_set_NoDup|].
  intros x. by rewrite elem_of_list_set.
Qed.

End CandidateElements.

(** X1. For a URL that is not empty, the list [generate_alternative_urls]
    returns has exactly the strings the function built (the URL, its three
    re-rooted forms and, when year and id are both given, the nine template
    names): the set conversion drops repetitions and nothing else.  So a
    record has at least one and at most 13 candidates, at most 4 without a
    year or an id. *)
Theorem candidates_are_the_built_ones (E : Env) (url scholar_id year : pyval)
    (l : list string) :
  truthy url = true ->
  DownloadPhotos.generate_alternative_urls E url scholar_id year = Ok l ->
  exists built,
    DownloadPhotos.alternatives_built E url scholar_id year = Ok built
    /\ (forall x, x ∈ l <-> x ∈ built)
    /\ py_str url ∈ l
    /\ (1 <= length l <= length built)%nat
    /\ length built = if truthy year && truthy scholar_id then 13%nat else 4%nat.
Proof.
  intros Ht. unfold DownloadPhotos.generate_alternative_urls. rewrite Ht. simpl.
  destruct (DownloadPhotos.alternatives_built E url scholar_id year) as [built|e] eqn:Hb;
    simpl; [|done].
  intros [= <-]. exists built. split; [done|].
  assert (py_str url ∈ PySet.list_set (set_slot E) built) as Hin.
  { apply elem_of_list_set. apply alternatives_built_head in Hb.
    destruct built as [|x built]; simplify_eq/=. by left. }
  split; [intros x; apply elem_of_list_set|]. split; [exact Hin|].
  split; [|exact (alternatives_built_length E url scholar_id year built Hb)].
  split; [|apply list_set_length_le].
  destruct (PySet.list_set (set_slot E) built); [by apply elem_of_nil in Hin|simpl; lia].
Qed.

Lemma candidates_are_the_built_ones_witness :
  exists l built,
    DownloadPhotos.generate_alternative_urls (Stub.offline PySet.newest_first)
      (VStr collapsing_url) (VNum true "42") (VStr "") = Ok l
    /\ DownloadPhotos.alternatives_built (Stub.offline PySet.newest_first)
         (VStr collapsing_url) (VNum true "42") (VStr "") = Ok built
    /\ (forall x, x ∈ l <-> x ∈ built)
    /\ length l = 3%nat /\ length built = 4%nat.
Proof.
  destruct (candidates_are_the_built_ones (Stub.offline PySet.newest_first)
              (VStr collapsing_url) (VNum true "42") (VStr "")
              [ "https://www.westpac.com.au/content/dam/public/wsch/images/2022/wsch_scholarhs_42_480x480.jpg";
                "https://www.westpac.com.au/about-westpac/sustainability/initiatives-for-you/westpac-scholars/2022/wsch_scholarhs_42_480x480.jpg";
                collapsing_url ])
    as (built & Hb & Hel & _ & _ & Hlen).
  - reflexivity.
  - vm_compute. reflexivity.
  - eexists. exists built. split; [vm_compute; reflexivity|].
    split; [exact Hb|]. split; [exact Hel|]. split; [reflexivity|exact Hlen].
Defined.

(** ** The loop over the candidates of [download_image] *)
Section CandidateLoop.
Import DownloadPhotos.
Variables (E : Env) (s : session) (name : pyval) (filepath : string).

Ltac calls := rewrite ?network_calls_app; simpl; rewrite ?app_nil_r.

(** One request, at most one write, and the write is to [filepath]. *)
Lemma attempt_effect i n u w res w' :
  attempt E s name filepath i n u w = (res, w') ->
  network_calls (trace w') = network_calls (trace w) ++ [SessionGet u]
  /\ (files w' = files w \/ exists c, files w' = <[filepath := c]> (files w))
  /\ (forall p, res = Ok (Return p) -> p = filepath /\ is_Some (files w' !! filepath)).
Proof.
  unfold attempt, session_get_op, handle_response, raise_for_status. run.
  match goal with |- context [session_get E ?a ?t ?b] =>
    destruct (session_get E a t b) as [r|e] end.
  2:{ intros [= <- <-]. simpl. calls. split; [done|]. split; [by left|done]. }
  destruct ((400 <=? status_code r) && (status_code r <? 600)).
  { simpl. intros [= <- <-]. simpl. calls. split; [done|]. split; [by left|done]. }
  destruct (Str.startswith "image/" (content_type r)); simpl.
  2:{ intros [= <- <-]. simpl. calls. split; [done|]. split; [by left|done]. }
  match goal with |- context [save_stream E ?p ?r ?w0] =>
    destruct (save_stream E p r w0) as [[[]|e] w1] eqn:Hsave end;
    intros [= <- <-];
    apply save_stream_files in Hsave as [(Hf & Ht & e0 & He)|(Hf & Ht & _)];
    try discriminate He;
    simpl in Hf, Ht; simpl; rewrite ?Ht, ?Hf; calls.
  - split; [done|]. split; [right; eauto|]. intros p [= <-].
    split; [done|]. rewrite lookup_insert_eq. eauto.
  - split; [done|]. split; [by left|done].
  - split; [done|]. split; [right; eauto|done].
Qed.

(** One turn of the loop, then the rest of it. *)
Lemma try_urls_cons i n u rest w :
  try_urls E s name filepath i n (u :: rest) w
  = match attempt E s name filepath i n u w with
    | (Ok (Return p), w1) => (Ok (Some p), w1)
    | (Ok Continue, w1) => try_urls E s name filepath (S i) n rest w1
    | (Raise e, w1) =>
        if is_request_exception e
        then try_urls E s name filepath (S i) n rest
               (after w1 [Log WARNING ("Failed to download from " +:+ u +:+ " for "
                                       +:+ py_str name +:+ ": " +:+ exc_msg e)])
        else (Raise e, w1)
    end.
Proof.
  cbn [try_urls]. unfold try_except, mbind, M_bind, bind.
  destruct (attempt E s name filepath i n u w) as [[[|p]|e] w1]; try reflexivity.
  destruct (is_request_exception e); reflexivity.
Qed.

(** What the loop as a whole does to the network and to the files. *)
Lemma try_urls_effect n urls i w res w' :
  try_urls E s name filepath i n urls w = (res, w') ->
  (exists k,
      (k <= length urls)%nat
      /\ network_calls (trace w')
         = network_calls (trace w) ++ map SessionGet (take k urls)
      /\ (res = Ok None -> k = length urls)
      /\ (forall p, res = Ok (Some p) -> (1 <= k)%nat))
  /\ (forall q, q <> filepath -> files w' !! q = files w !! q)
  /\ (forall p, res = Ok (Some p) -> p = filepath /\ is_Some (files w' !! filepath)).
Proof.
  revert i w. induction urls as [|u rest IH]; intros i w.
  - cbn [try_urls]. run. intros [= <- <-]. simpl. split; [|done].
    exists 0%nat. simpl. calls. done.
  - rewrite try_urls_cons.
    destruct (attempt E s name filepath i n u w) as [r1 w1] eqn:Hatt.
    apply attempt_effect in Hatt as (Hcalls & Hfiles & Hret).
    assert (forall q, q <> filepath -> files w1 !! q = files w !! q) as Hframe.
    { intros q Hq. destruct Hfiles as [->|[c ->]]; [done|].
      by rewrite lookup_insert_ne. }
    destruct r1 as [[|p]|e].
    + intros Hrest. apply IH in Hrest as ((k & Hk & Hc & Hnone & Hsome) & Hfr & Hr).
      split; [|split; [intros q Hq; rewrite Hfr, Hframe; done|exact Hr]].
      exists (S k). simpl. split; [lia|]. rewrite Hc, Hcalls, <- app_assoc.
      split; [done|]. split; [intros H; by rewrite Hnone|intros; lia].
    + intros [= <- <-]. destruct (Hret p eq_refl) as [-> Hex].
      split; [|split; [exact Hframe|by intros ? [= <-]]].
      exists 1%nat. simpl. split; [lia|]. split; [by rewrite ?take_0|].
      split; [done|intros; lia].
    + destruct (is_request_exception e).
      * intros Hrest. apply IH in Hrest as ((k & Hk & Hc & Hnone & Hsome) & Hfr & Hr).
        simpl in Hc, Hfr. rewrite network_calls_log in Hc.
        split; [|split; [intros q Hq; rewrite Hfr, Hframe; done|exact Hr]].
        exists (S k). simpl. split; [lia|]. rewrite Hc, Hcalls, <- app_assoc.
        split; [done|]. split; [intros H; by rewrite Hnone|intros; lia].
      * intros [= <- <-]. split; [|split; [exact Hframe|done]].
        exists 1%nat. simpl. split; [lia|]. split; [by rewrite ?take_0|]. done.
Qed.

End CandidateLoop.

(** ** [download_image] as a whole *)
Section DownloadImage.
Import DownloadPhotos.
Variable E : Env.

Lemma generated_candidates url scholar_id year urls :
  generate_alternative_urls E url scholar_id year = Ok urls ->
  NoDup urls /\ (length urls <= 13)%nat.
Proof.
  unfold generate_alternative_urls. destruct (negb (truthy url)).
  - intros [= <-]. split; [constructor|simpl; lia].
  - destruct (alternatives_built E url scholar_id year) as [built|e] eqn:Hb;
      cbv [mbind result_bind rbind]; [|done].
    intros [= <-]. split; [apply list_set_NoDup|].
    pose proof (list_set_length_le (set_slot E) built) as Hle.
    pose proof (alternatives_built_length E url scholar_id year built Hb) as Hlen.
    destruct (truthy year && truthy scholar_id); lia.
Qed.

(** Either the function ends before the loop, with the files and the
    network untouched, or it runs the loop over the generated candidates
    for an artifact that is not on disk. *)
Lemma download_image_cases row w res w' :
  download_image E row w = (res, w') ->
  (files w' = files w
   /\ network_calls (trace w') = network_calls (trace w)
   /\ (forall fp, res = Ok (Some fp) ->
         artifact_path E (row_get row "image_url" (VStr ""))
           (row_get row "id" (VStr "")) (row_get row "name" (VStr "unknown")) = Ok fp
         /\ is_Some (files w !! fp)))
  \/ (exists fp urls,
        artifact_path E (row_get row "image_url" (VStr ""))
          (row_get row "id" (VStr "")) (row_get row "name" (VStr "unknown")) = Ok fp
        /\ generate_alternative_urls E (row_get row "image_url" (VStr ""))
             (row_get row "id" (VStr "")) (row_get row "year" (VStr "")) = Ok urls
        /\ files w !! fp = None
        /\ try_urls E create_session (row_get row "name" (VStr "unknown")) fp 0
             (length urls) urls w = (res, w')).
Proof.
  unfold download_image. run.
  destruct (no_image_url E (row_get row "image_url" (VStr ""))) as [[]|e].
  - intros [= <- <-]. left. simpl. rewrite network_calls_log. done.
  - destruct (artifact_path E _ _ _) as [fp|e] eqn:Hfp.
    2:{ intros [= <- <-]. left. done. }
    destruct (bool_decide (is_Some (files w !! fp))) eqn:Hex.
    + intros [= <- <-]. left. simpl. rewrite network_calls_log.
      split; [done|]. split; [done|]. intros ? [= <-].
      split; [done|]. by apply bool_decide_eq_true in Hex.
    + destruct (generate_alternative_urls E _ _ _) as [urls|e] eqn:Hgen.
      2:{ intros [= <- <-]. left. done. }
      intros Hloop. right. exists fp, urls.
      split; [done|]. split; [done|]. split; [|exact Hloop].
      apply bool_decide_eq_false in Hex.
      destruct (files w !! fp); [destruct Hex; eauto|done].
  - intros [= <- <-]. left. done.
Qed.

End DownloadImage.

(** X2. Whatever the network answers, [download_image] calls nothing but
    [session.get]: it requests a prefix of the candidate list, in the order
    of the list, no URL twice and never more than 13 URLs for one record. *)
Theorem download_image_requests_candidates_once (E : Env) (row : gmap string pyval)
    (w : world) :
  exists requested,
    network_calls (trace (DownloadPhotos.download_image E row w).2)
    = network_calls (trace w) ++ map SessionGet requested
    /\ NoDup requested
    /\ (length requested <= 13)%nat
    /\ (requested = []
        \/ exists urls,
             DownloadPhotos.generate_alternative_urls E
               (row_get row "image_url" (VStr "")) (row_get row "id" (VStr ""))
               (row_get row "year" (VStr "")) = Ok urls
             /\ requested `prefix_of` urls).
Proof.
  destruct (DownloadPhotos.download_image E row w) as [res w'] eqn:Hrun.
  apply download_image_cases in Hrun
    as [(_ & Hcalls & _)|(fp & urls & Hfp & Hgen & _ & Hloop)]; simpl.
  - exists []. simpl. rewrite app_nil_r. split; [done|].
    split; [constructor|]. split; [lia|by left].
  - apply try_urls_effect in Hloop as ((k & Hk & Hcalls & _) & _).
    destruct (generated_candidates E _ _ _ _ Hgen) as [Hnd Hlen].
    exists (take k urls). split; [done|].
    split; [exact (sublist_NoDup _ _ Hnd (sublist_take urls k))|].
    split; [rewrite length_take; lia|].
    right. exists urls. split; [done|]. apply prefix_take.
Qed.

(** X3. A path returned by [download_image] is the artifact path of the
    record and names a file that exists when the function returns: either
    it was there before, or this call has written it. *)
Theorem download_image_returned_path_exists (E : Env) (row : gmap string pyval)
    (w w' : world) (fp : string) :
  DownloadPhotos.download_image E row w = (Ok (Some fp), w') ->
  DownloadPhotos.artifact_path E (row_get row "image_url" (VStr ""))
    (row_get row "id" (VStr "")) (row_get row "name" (VStr "unknown")) = Ok fp
  /\ is_Some (files w' !! fp).
Proof.
  intros Hrun. apply download_image_cases in Hrun
    as [(Hfiles & _ & Hret)|(fp' & urls & Hfp & _ & _ & Hloop)].
  - destruct (Hret fp eq_refl) as [Hfp Hex]. by rewrite Hfiles.
  - apply try_urls_effect in Hloop as (_ & _ & Hret).
    destruct (Hret fp eq_refl) as [-> Hex]. done.
Qed.

Lemma download_image_returned_path_exists_witness :
  DownloadPhotos.download_image (answering photo) jane Stub.empty_world
  = (Ok (Some "scholar_photos/42_Jane_Doe.jpg"),
     World {[ "scholar_photos/42_Jane_Doe.jpg" := "JFIF" ]}
       [Log INFO "Attempting to download image for Jane Doe from https://origin/a/b.jpg (attempt 1/13)";
        SessionGet "https://origin/a/b.jpg";
        Log INFO "Successfully downloaded image for Jane Doe"])
  /\ DownloadPhotos.artifact_path (answering photo)
       (row_get jane "image_url" (VStr "")) (row_get jane "id" (VStr ""))
       (row_get jane "name" (VStr "unknown")) = Ok "scholar_photos/42_Jane_Doe.jpg"
  /\ is_Some
       (files (World {[ "scholar_photos/42_Jane_Doe.jpg" := "JFIF" ]}
                 [Log INFO "Attempting to download image for Jane Doe from https://origin/a/b.jpg (attempt 1/13)";
                  SessionGet "https://origin/a/b.jpg";
                  Log INFO "Successfully downloaded image for Jane Doe"])
          !! "scholar_photos/42_Jane_Doe.jpg").
Proof.
  split; [vm_compute; reflexivity|].
  apply (download_image_returned_path_exists (answering photo) jane Stub.empty_world
           (World {[ "scholar_photos/42_Jane_Doe.jpg" := "JFIF" ]}
              [Log INFO "Attempting to download image for Jane Doe from https://origin/a/b.jpg (attempt 1/13)";
               SessionGet "https://origin/a/b.jpg";
               Log INFO "Successfully downloaded image for Jane Doe"])
           "scholar_photos/42_Jane_Doe.jpg").
  vm_compute. reflexivity.
Defined.

(** X4. [download_image] changes no file other than the artifact of its
    own record and the log file of the script, to which the logging handler
    appends: every other path holds after the call what it held before,
    whatever the candidates answer and whether the call returns or raises. *)
Theorem download_image_touches_only_its_artifact (E : Env) (row : gmap string pyval)
    (w : world) (q : string) :
  q = DownloadPhotos.LOG_FILE
  \/ DownloadPhotos.artifact_path E (row_get row "image_url" (VStr ""))
       (row_get row "id" (VStr "")) (row_get row "name" (VStr "unknown")) = Ok q
  \/ files (DownloadPhotos.download_image E row w).2 !! q = files w !! q.
Proof.
  right.
  destruct (DownloadPhotos.download_image E row w) as [res w'] eqn:Hrun.
  apply download_image_cases in Hrun
    as [(Hfiles & _ & _)|(fp & urls & Hfp & _ & _ & Hloop)]; simpl.
  - right. by rewrite Hfiles.
  - apply try_urls_effect in Hloop as (_ & Hframe & _).
    destruct (decide (q = fp)) as [->|Hne]; [by left|right; by apply Hframe].
Qed.

(** X5. When the candidate's response passes the checks and the artifact
    file cannot be opened, the [OSError] is not a [RequestException]: it
    leaves the loop of [download_image] at once, and the candidates that
    follow are not requested. *)
Theorem open_failure_leaves_download_image (E : Env) (s : session) (name : pyval)
    (filepath : string) (i n : nat) (current_url : string) (rest : list string)
    (w : world) (r : response) (e : exc) :
  session_get E s
    (trace w ++ [Log INFO ("Attempting to download image for " +:+ py_str name
                           +:+ " from " +:+ current_url +:+ " (attempt "
                           +:+ pretty (S i) +:+ "/" +:+ pretty n +:+ ")")])
    current_url = Ok r ->
  photos_accepts r = true ->
  open_error E filepath = Some e ->
  is_request_exception e = false ->
  DownloadPhotos.try_urls E s name filepath i n (current_url :: rest) w
  = (Raise e,
     after w [Log INFO ("Attempting to download image for " +:+ py_str name
                        +:+ " from " +:+ current_url +:+ " (attempt "
                        +:+ pretty (S i) +:+ "/" +:+ pretty n +:+ ")");
              SessionGet current_url]).
Proof.
  intros Hget Hacc Hopen Hcls. apply andb_true_iff in Hacc as [Hst Hct].
  apply negb_true_iff in Hst.
  rewrite try_urls_cons.
  unfold DownloadPhotos.attempt, DownloadPhotos.session_get_op,
    DownloadPhotos.handle_response, DownloadPhotos.raise_for_status, save_stream.
  run. rewrite Hget, Hst. simpl. rewrite Hct. simpl. rewrite Hopen, Hcls.
  unfold after. by rewrite <- app_assoc.
Qed.

Lemma open_failure_leaves_download_image_witness :
  DownloadPhotos.download_image (read_only (answering photo)) jane Stub.empty_world
  = (Raise (Exc OSError "[Errno 13] Permission denied"),
     World ∅
       [Log INFO "Attempting to download image for Jane Doe from https://origin/a/b.jpg (attempt 1/13)";
        SessionGet "https://origin/a/b.jpg"])
  /\ DownloadPhotos.try_urls (read_only (answering photo)) DownloadPhotos.create_session
       (VStr "Jane Doe") "scholar_photos/42_Jane_Doe.jpg" 0 13
       ["https://origin/a/b.jpg"; "https://scholars.westpac.com.au/a/b.jpg"]
       Stub.empty_world
     = (Raise (Exc OSError "[Errno 13] Permission denied"),
        after Stub.empty_world
          [Log INFO "Attempting to download image for Jane Doe from https://origin/a/b.jpg (attempt 1/13)";
           SessionGet "https://origin/a/b.jpg"]).
Proof.
  split; [vm_compute; reflexivity|].
  apply (open_failure_leaves_download_image (read_only (answering photo))
           DownloadPhotos.create_session (VStr "Jane Doe")
           "scholar_photos/42_Jane_Doe.jpg" 0%nat 13%nat "https://origin/a/b.jpg"
           ["https://scholars.westpac.com.au/a/b.jpg"] Stub.empty_world photo).
  - vm_compute. reflexivity.
  - vm_compute. reflexivity.
  - vm_compute. reflexivity.
  - vm_compute. reflexivity.
Defined.

(** ** One strategy of the DNS script *)
Section OneStrategy.
Import DnsResolverDownload.
Variable E : Env.

Ltac calls := rewrite ?network_calls_app; simpl; rewrite ?app_nil_r.

Lemma resolve_calls domain dns_servers w res w' :
  resolve_domain_with_dns E domain dns_servers w = (res, w') ->
  network_calls (trace w') = network_calls (trace w) ++ [resolve_call dns_servers domain].
Proof.
  unfold resolve_domain_with_dns, resolve_A, socket_gethostbyname, resolve_call.
  destruct (custom_servers dns_servers) as [servers|]; run.
  - destruct (resolver_resolve E (trace w) servers domain) as [[|a l]|e];
      intros [= <- <-]; simpl; calls; done.
  - destruct (gethostbyname E (trace w) domain) as [ip|e].
    + intros [= <- <-]; simpl; calls; done.
    + destruct (is_gaierror e); intros [= <- <-]; simpl; calls; done.
Qed.

Lemma dns_handle_response_calls url output_path dns_name r w res w' :
  handle_response E url output_path dns_name r w = (res, w') ->
  network_calls (trace w') = network_calls (trace w).
Proof.
  unfold handle_response.
  destruct (negb (status_code r =? 200)).
  { intros [= <- <-]. simpl. by calls. }
  destruct (negb (Str.startswith "image/" (content_type r))).
  { intros [= <- <-]. simpl. by calls. }
  run. destruct (save_stream E output_path r w) as [[[]|e] w1] eqn:Hsave;
    intros [= <- <-];
    apply save_stream_files in Hsave as [(_ & Ht & _)|(_ & Ht & _)];
    simpl; rewrite ?Ht; by calls.
Qed.

(** The calls of the body: none when the URL does not parse, else one
    lookup, followed by one request when the lookup gave an address. *)
Lemma download_body_calls url output_path dns_name dns_servers w res w' :
  download_body E url output_path dns_name dns_servers w = (res, w') ->
  exists calls,
    network_calls (trace w') = network_calls (trace w) ++ calls
    /\ ((calls = [] /\ res <> Ok true)
        \/ exists p,
             urlparse E url = Ok p
             /\ ((calls = [resolve_call dns_servers (netloc p)] /\ res <> Ok true)
                 \/ exists ip,
                      ip <> ""
                      /\ calls = [resolve_call dns_servers (netloc p);
                                  RequestsGet (Str.replace (netloc p) ip url) (netloc p)])).
Proof.
  unfold download_body. run.
  destruct (urlparse E url) as [p|e].
  2:{ intros [= <- <-]. exists []. rewrite app_nil_r. split; [done|by left]. }
  destruct (resolve_domain_with_dns E (netloc p) dns_servers w) as [[ip|e] w1] eqn:Hres;
    apply resolve_calls in Hres.
  2:{ intros [= <- <-]. eexists. split; [exact Hres|].
      right. exists p. split; [done|]. by left. }
  destruct ip as [ip_address|].
  2:{ intros [= <- <-]. simpl. rewrite network_calls_log.
      eexists. split; [exact Hres|]. right. exists p. split; [done|]. by left. }
  destruct (String.eqb ip_address "") eqn:Hip.
  { intros [= <- <-]. simpl. rewrite network_calls_log.
    eexists. split; [exact Hres|]. right. exists p. split; [done|]. by left. }
  unfold requests_get_op. cbn [files trace].
  match goal with |- context [requests_get E ?t ?a ?b] =>
    destruct (requests_get E t a b) as [r|e] end.
  - intros Hh. apply dns_handle_response_calls in Hh. simpl in Hh.
    rewrite Hh. calls. rewrite Hres, <- app_assoc. simpl.
    eexists. split; [reflexivity|]. right. exists p. split; [done|]. right.
    exists ip_address. split; [by apply String.eqb_neq|done].
  - intros [= <- <-]. simpl. calls. rewrite Hres, <- app_assoc. simpl.
    eexists. split; [reflexivity|]. right. exists p. split; [done|]. right.
    exists ip_address. split; [by apply String.eqb_neq|done].
Qed.

(** The files after one strategy: unchanged, or [output_path] written. *)
Lemma download_with_custom_dns_files url output_path dns_name dns_servers w b w' :
  download_with_custom_dns E url output_path dns_name dns_servers w = (Ok b, w') ->
  (files w' = files w \/ exists c, files w' = <[output_path := c]> (files w))
  /\ (b = true -> is_Some (files w' !! output_path)).
Proof.
  unfold download_with_custom_dns, try_except.
  destruct (download_body E url output_path dns_name dns_servers w) as [[b0|e] w1] eqn:Hbody;
    apply download_body_files in Hbody
      as [[Hf Hne]|(r & t & ip_url & host & _ & _ & Hf & Hiff)];
    run; intros [= <- <-]; cbn [files].
  - split; [by left|]. intros ->. done.
  - split; [right; eauto|]. intros _. rewrite Hf, lookup_insert_eq. eauto.
  - split; [by left|done].
  - split; [right; eauto|done].
Qed.

End OneStrategy.

(** X6. With a list of name servers [resolve_domain_with_dns] never raises
    and never turns to the system resolver: it sends one query to the
    servers given, returns the first address of the answer, and returns
    [None] when the answer is empty or the query raised anything.  An
    empty server list counts as no list: the system resolver is asked. *)
Theorem named_servers_single_query (E : Env) (domain a : string) (l : list string)
    (w : world) :
  (exists ip w',
      DnsResolverDownload.resolve_domain_with_dns E domain (Some (a :: l)) w = (Ok ip, w')
      /\ files w' = files w
      /\ network_calls (trace w')
         = network_calls (trace w) ++ [DnsQuery (a :: l) domain]
      /\ (forall x,
            ip = Some x
            <-> exists more,
                  resolver_resolve E (trace w) (a :: l) domain = Ok (x :: more)))
  /\ DnsResolverDownload.resolve_domain_with_dns E domain (Some []) w
     = DnsResolverDownload.resolve_domain_with_dns E domain None w.
Proof.
  split; [|reflexivity].
  destruct (DnsResolverDownload.resolve_domain_with_dns E domain (Some (a :: l)) w)
    as [res w'] eqn:Hrun.
  pose proof (resolve_keeps_files E _ _ _ _ _ Hrun) as Hf.
  pose proof (resolve_calls E _ _ _ _ _ Hrun) as Hc.
  revert Hrun.
  unfold DnsResolverDownload.resolve_domain_with_dns, DnsResolverDownload.resolve_A.
  simpl. run.
  destruct (resolver_resolve E (trace w) (a :: l) domain) as [[|first more]|e];
    intros [= <- <-]; do 2 eexists; (split; [reflexivity|]);
    (split; [exact Hf|]); (split; [exact Hc|]); intros x; split;
    try (intros [= <-]); try (intros [more' [= <- <-]]); try (intros [? [=]]); eauto.
Qed.

(** X7. [download_with_custom_dns] never raises: whatever the URL parser,
    the resolver, the origin or the file system do, it returns a boolean.
    Towards the network it makes no call when the URL does not parse, else
    one lookup of the URL's host under the given strategy and, only when
    that lookup returned a non-empty address, one GET whose URL is the URL
    with the host name replaced by the address the lookup returned and
    whose [Host] header is the host name.  It returns [True] only after
    both calls. *)
Theorem download_with_custom_dns_one_lookup_one_request (E : Env)
    (url output_path dns_name : string) (dns_servers : option (list string))
    (w : world) :
  exists b w' calls,
    DnsResolverDownload.download_with_custom_dns E url output_path dns_name
      dns_servers w = (Ok b, w')
    /\ network_calls (trace w') = network_calls (trace w) ++ calls
    /\ match urlparse E url with
       | Raise _ => calls = [] /\ b = false
       | Ok p =>
           match (DnsResolverDownload.resolve_domain_with_dns E (netloc p)
                    dns_servers w).1 with
           | Ok (Some ip) =>
               if String.eqb ip ""
               then calls = [resolve_call dns_servers (netloc p)] /\ b = false
               else calls = [resolve_call dns_servers (netloc p);
                             RequestsGet (Str.replace (netloc p) ip url) (netloc p)]
           | _ => calls = [resolve_call dns_servers (netloc p)] /\ b = false
           end
       end.
Proof.
  unfold DnsResolverDownload.download_with_custom_dns, try_except.
  rewrite download_body_run.
  destruct (urlparse E url) as [p|e].
  2:{ run. do 3 eexists. split; [reflexivity|]. cbn [trace].
      rewrite network_calls_log. split; [by rewrite app_nil_r|done]. }
  destruct (DnsResolverDownload.resolve_domain_with_dns E (netloc p) dns_servers w)
    as [[[ip|]|e] w1] eqn:Hres;
    apply resolve_calls in Hres; cbn [fst].
  2,3: run; do 3 eexists; (split; [reflexivity|]); cbn [trace after];
       rewrite network_calls_log; (split; [exact Hres|done]).
  destruct (String.eqb ip "").
  { run. do 3 eexists. split; [reflexivity|]. cbn [trace after].
    rewrite network_calls_log. split; [exact Hres|done]. }
  cbv zeta.
  destruct (requests_get E _ _ _) as [r|e].
  - match goal with |- context [DnsResolverDownload.handle_response E ?a ?b ?c ?d ?w0] =>
      destruct (DnsResolverDownload.handle_response E a b c d w0) as [[b0|e] w2] eqn:Hh
    end;
      apply dns_handle_response_calls in Hh; cbn [trace after] in Hh;
      rewrite network_calls_app, Hres, <- app_assoc in Hh; simpl in Hh;
      run; do 3 eexists; (split; [reflexivity|]); cbn [trace];
      rewrite ?network_calls_log; (split; [exact Hh|done]).
  - run. do 3 eexists. split; [reflexivity|]. cbn [trace after].
    rewrite network_calls_log, network_calls_app, Hres, <- app_assoc.
    split; [reflexivity|done].
Qed.

(** ** [process_scholar] as a whole *)
Section ProcessScholar.
Import DnsResolverDownload.
Variable E : Env.

Lemma download_with_custom_dns_calls_le url output_path dns_name dns_servers w b w' :
  download_with_custom_dns E url output_path dns_name dns_servers w = (Ok b, w') ->
  (length (network_calls (trace w')) <= length (network_calls (trace w)) + 2)%nat.
Proof.
  unfold download_with_custom_dns, try_except.
  destruct (download_body E url output_path dns_name dns_servers w)
    as [[b0|e] w1] eqn:Hbody;
    apply download_body_calls in Hbody as (calls & Hc & Hshape); run;
    intros [= <- <-]; cbn [trace]; rewrite ?network_calls_log, Hc, length_app;
    destruct Hshape as [[-> _]|(p & _ & [[-> _]|(ip & _ & ->)])]; simpl; lia.
Qed.

(** What the loop over the strategies does to the files and the network. *)
Lemma try_dns_servers_effect url filepath scholar_id name servers w res w' :
  try_dns_servers E url filepath scholar_id name servers w = (res, w') ->
  (forall q, q <> filepath -> files w' !! q = files w !! q)
  /\ (forall d, res = Ok d -> d !! "success" = Some (VBool true) ->
        is_Some (files w' !! filepath))
  /\ (length (network_calls (trace w'))
      <= length (network_calls (trace w)) + 2 * length servers)%nat.
Proof.
  revert w. induction servers as [|[dns_name dns_servers] rest IH]; intros w.
  - cbn [try_dns_servers]. run. intros [= <- <-]. simpl.
    rewrite network_calls_log. split; [done|]. split; [|lia].
    intros d [= <-]. unfold outcome. by simplify_map_eq.
  - destruct (download_with_custom_dns_returns E url filepath dns_name dns_servers
                (after w [Log INFO ("Attempting to download image for "
                                    +:+ py_str name +:+ " using " +:+ dns_name)]))
      as (b & w1 & Hturn).
    pose proof (download_with_custom_dns_files E _ _ _ _ _ _ _ Hturn) as [Hfiles Hwritten].
    pose proof (download_with_custom_dns_calls_le _ _ _ _ _ _ _ Hturn) as Hcalls.
    simpl in Hfiles, Hcalls. rewrite network_calls_log in Hcalls.
    assert (forall q, q <> filepath -> files w1 !! q = files w !! q) as Hframe.
    { intros q Hq. destruct Hfiles as [->|[c ->]]; [done|].
      by rewrite lookup_insert_ne. }
    change (turn E url filepath name (dns_name, dns_servers) w = (Ok b, w1)) in Hturn.
    rewrite (try_dns_servers_cons E url filepath scholar_id name _ _ rest _ _ _ Hturn).
    destruct b.
    + intros [= <- <-]. split; [exact Hframe|]. split; [by intros; apply Hwritten|].
      simpl. lia.
    + intros Hrest. apply IH in Hrest as (Hfr & Hsucc & Hlen).
      split; [intros q Hq; rewrite Hfr, Hframe; done|]. split; [exact Hsucc|].
      simpl. lia.
Qed.

(** Either the function ends before the loop, with the files and the
    network untouched, or it runs the loop over [DNS_SERVERS] for an
    artifact that is not on disk. *)
Lemma process_scholar_cases row w res w' :
  process_scholar E row w = (res, w') ->
  (files w' = files w
   /\ network_calls (trace w') = network_calls (trace w)
   /\ (forall d, res = Ok d -> d !! "success" = Some (VBool true) ->
         exists fp,
           artifact_path (row_get row "id" (VStr ""))
             (row_get row "name" (VStr "unknown")) = Ok fp
           /\ is_Some (files w !! fp)))
  \/ (exists fp,
        artifact_path (row_get row "id" (VStr ""))
          (row_get row "name" (VStr "unknown")) = Ok fp
        /\ files w !! fp = None
        /\ try_dns_servers E (py_str (row_get row "image_url" (VStr ""))) fp
             (row_get row "id" (VStr "")) (row_get row "name" (VStr "unknown"))
             DNS_SERVERS w = (res, w')).
Proof.
  unfold process_scholar. generalize DNS_SERVERS. intros servers. run.
  destruct (no_image_url E (row_get row "image_url" (VStr ""))) as [[]|e].
  - intros [= <- <-]. left. simpl. rewrite network_calls_log.
    split; [done|]. split; [done|]. intros d [= <-]. unfold outcome.
    intros Hs. by simplify_map_eq.
  - destruct (artifact_path _ _) as [fp|e] eqn:Hfp.
    2:{ intros [= <- <-]. left. done. }
    destruct (bool_decide (is_Some (files w !! fp))) eqn:Hex.
    + intros [= <- <-]. left. simpl. rewrite network_calls_log.
      split; [done|]. split; [done|]. intros d _ _. exists fp.
      split; [done|]. by apply bool_decide_eq_true in Hex.
    + intros Hloop. right. exists fp. split; [done|]. split; [|exact Hloop].
      apply bool_decide_eq_false in Hex.
      destruct (files w !! fp); [destruct Hex; eauto|done].
  - intros [= <- <-]. left. done.
Qed.

End ProcessScholar.

(** X8. When [process_scholar] reports a success, the artifact file of the
    record exists at the path the function computed: it was on disk before
    ("Already downloaded") or one of the strategies has written it. *)
Theorem process_scholar_success_has_artifact (E : Env) (row : gmap string pyval)
    (w w' : world) (d : gmap string pyval) :
  DnsResolverDownload.process_scholar E row w = (Ok d, w') ->
  d !! "success" = Some (VBool true) ->
  exists fp,
    DnsResolverDownload.artifact_path (row_get row "id" (VStr ""))
      (row_get row "name" (VStr "unknown")) = Ok fp
    /\ is_Some (files w' !! fp).
Proof.
  intros Hrun Hsucc. apply process_scholar_cases in Hrun
    as [(Hfiles & _ & Hret)|(fp & Hfp & _ & Hloop)].
  - destruct (Hret d eq_refl Hsucc) as (fp & Hfp & Hex). exists fp. by rewrite Hfiles.
  - apply try_dns_servers_effect in Hloop as (_ & Hwritten & _).
    exists fp. split; [done|]. by apply (Hwritten d).
Qed.

Lemma process_scholar_success_has_artifact_witness :
  exists w' fp,
    DnsResolverDownload.process_scholar only_default_resolves jane Stub.empty_world
    = (Ok (DnsResolverDownload.outcome (VStr "42") (VStr "Jane Doe") true
             (VStr "Default DNS")), w')
    /\ DnsResolverDownload.artifact_path (row_get jane "id" (VStr ""))
         (row_get jane "name" (VStr "unknown")) = Ok fp
    /\ is_Some (files w' !! fp).
Proof.
  eexists. 
  assert (DnsResolverDownload.process_scholar only_default_resolves jane Stub.empty_world
          = (Ok (DnsResolverDownload.outcome (VStr "42") (VStr "Jane Doe") true
                   (VStr "Default DNS")),
             (DnsResolverDownload.process_scholar only_default_resolves jane
                Stub.empty_world).2)) as Hrun by (vm_compute; reflexivity).
  destruct (process_scholar_success_has_artifact only_default_resolves jane
              Stub.empty_world _ _ Hrun) as (fp & Hfp & Hex).
  - vm_compute. reflexivity.
  - exists fp. split; [exact Hrun|]. split; [exact Hfp|exact Hex].
Defined.

(** X9. [process_scholar] changes no file other than the artifact of its
    own record and the log file of the script, to which the logging handler
    appends: every other path holds after the call what it held before. *)
Theorem process_scholar_touches_only_its_artifact (E : Env) (row : gmap string pyval)
    (w : world) (q : string) :
  q = DnsResolverDownload.LOG_FILE
  \/ DnsResolverDownload.artifact_path (row_get row "id" (VStr ""))
       (row_get row "name" (VStr "unknown")) = Ok q
  \/ files (DnsResolverDownload.process_scholar E row w).2 !! q = files w !! q.
Proof.
  right.
  destruct (DnsResolverDownload.process_scholar E row w) as [res w'] eqn:Hrun.
  apply process_scholar_cases in Hrun
    as [(Hfiles & _ & _)|(fp & Hfp & _ & Hloop)]; simpl.
  - right. by rewrite Hfiles.
  - apply try_dns_servers_effect in Hloop as (Hframe & _ & _).
    destruct (decide (q = fp)) as [->|Hne]; [by left|right; by apply Hframe].
Qed.

(** X10. One record costs [process_scholar] at most ten network calls: at
    most one lookup and one GET under each of the five strategies. *)
Theorem process_scholar_at_most_ten_calls (E : Env) (row : gmap string pyval)
    (w : world) :
  (length (network_calls (trace (DnsResolverDownload.process_scholar E row w).2))
   <= length (network_calls (trace w)) + 10)%nat.
Proof.
  destruct (DnsResolverDownload.process_scholar E row w) as [res w'] eqn:Hrun.
  apply process_scholar_cases in Hrun
    as [(_ & Hcalls & _)|(fp & Hfp & _ & Hloop)]; simpl.
  - rewrite Hcalls. lia.
  - apply try_dns_servers_effect in Hloop as (_ & _ & Hlen). exact Hlen.
Qed.

(** ** The report of [main] in the DNS script *)
Section Report.
Import DnsResolverDownload DnsResolverMain.

(** The three kinds of dictionary [process_scholar] returns. *)
Lemma is_outcome_cases d :
  is_outcome d ->
  exists scholar_id name,
    d = outcome scholar_id name false VNone
    \/ d = outcome scholar_id name true (VStr "Already downloaded")
    \/ exists s, s ∈ DNS_SERVERS /\ d = outcome scholar_id name true (VStr s.1).
Proof.
  intros (E & row & w & w' & Hrun).
  exists (row_get row "id" (VStr "")), (row_get row "name" (VStr "unknown")).
  revert Hrun. unfold process_scholar. generalize (eq_refl DNS_SERVERS).
  generalize DNS_SERVERS at 1 3. intros servers Hservers. run.
  destruct (no_image_url E (row_get row "image_url" (VStr ""))) as [[]|e]; [| |done].
  - intros [= <- <-]. left. reflexivity.
  - destruct (artifact_path _ _) as [filepath|e]; [|done].
    destruct (bool_decide (is_Some (files w !! filepath))).
    + intros [= <- <-]. right. by left.
    + match goal with |- context [try_dns_servers E ?a ?b ?c ?d0 ?l ?w0] =>
        destruct (try_dns_servers_first_success E a b c d0 l w0)
          as [(pre & s & post & w1 & w2 & Hsplit & _ & _ & ->)|(w1 & _ & ->)] end.
      * intros [= <- <-]. right. right. exists s. split; [|done].
        rewrite <- Hservers, Hsplit. apply elem_of_app. right. by left.
      * intros [= <- <-]. by left.
Qed.

Lemma outcome_succeeded scholar_id name success successful_dns :
  succeeded (outcome scholar_id name success successful_dns) = success.
Proof.
  unfold succeeded.
  by destruct (outcome_fields scholar_id name success successful_dns) as [-> _].
Qed.

Lemma outcome_resolved_via dns_name scholar_id name success successful_dns :
  resolved_via dns_name (outcome scholar_id name success successful_dns)
  = py_eq_str successful_dns dns_name.
Proof.
  unfold resolved_via.
  by destruct (outcome_fields scholar_id name success successful_dns) as [_ ->].
Qed.

Lemma is_outcome_keys d :
  is_outcome d -> is_Some (d !! "success") /\ is_Some (d !! "successful_dns").
Proof.
  intros H. apply is_outcome_cases in H
    as (scholar_id & name & [->|[->|(s & _ & ->)]]);
    match goal with |- context [outcome ?a ?b ?c ?d0] =>
      destruct (outcome_fields a b c d0) as [-> ->] end; eauto.
Qed.

(** A success is reported under exactly one name: a resolver of the list,
    or "Already downloaded". *)
Lemma outcome_counted_once d :
  is_outcome d ->
  Nat.b2n (succeeded d)
  = (sum_list ((fun s => Nat.b2n (resolved_via s.1 d)) <$> DNS_SERVERS)
     + Nat.b2n (resolved_via "Already downloaded" d))%nat.
Proof.
  intros H. apply is_outcome_cases in H
    as (scholar_id & name & [->|[->|(s & Hs & ->)]]);
    rewrite outcome_succeeded; simpl; rewrite !outcome_resolved_via; try reflexivity.
  unfold DNS_SERVERS in Hs.
  repeat (apply elem_of_cons in Hs as [->|Hs]); try reflexivity.
  by apply elem_of_nil in Hs.
Qed.

Lemma filter_length_cons {A} (f : A -> bool) x l :
  length (List.filter f (x :: l)) = (Nat.b2n (f x) + length (List.filter f l))%nat.
Proof. simpl. by destruct (f x). Qed.

Lemma collect_all_returned results acc n0 :
  Forall is_outcome results ->
  collect (Ok <$> results) acc n0
  = inr (acc ++ results, (n0 + length (List.filter succeeded results))%nat).
Proof.
  intros Hall. revert acc n0. induction Hall as [|d results Hd _ IH]; intros acc n0.
  - simpl. by rewrite app_nil_r, Nat.add_0_r.
  - cbn [fmap list_fmap collect future_result]. unfold item.
    destruct (is_outcome_keys d Hd) as [[v Hv] _]. rewrite Hv.
    rewrite IH, filter_length_cons, <- app_assoc. unfold succeeded. rewrite Hv.
    simpl. f_equal. f_equal. destruct (truthy v); simpl; lia.
Qed.

Lemma count_dns_all_returned dns_name results :
  Forall is_outcome results ->
  count_dns dns_name results
  = inr (length (List.filter (resolved_via dns_name) results)).
Proof.
  induction 1 as [|d results Hd _ IH]; [done|].
  cbn [count_dns]. unfold item.
  destruct (is_outcome_keys d Hd) as [_ [v Hv]]. rewrite Hv, IH.
  rewrite filter_length_cons. unfold resolved_via. rewrite Hv.
  by destruct (py_eq_str v dns_name).
Qed.

Lemma successes_by_name results :
  Forall is_outcome results ->
  length (List.filter succeeded results)
  = (sum_list ((fun s => length (List.filter (resolved_via s.1) results))
                 <$> DNS_SERVERS)
     + length (List.filter (resolved_via "Already downloaded") results))%nat.
Proof.
  induction 1 as [|d results Hd _ IH]; [done|].
  rewrite !filter_length_cons, IH, (outcome_counted_once d Hd).
  unfold DNS_SERVERS. cbn [fmap list_fmap sum_list sum_list_with fst].
  rewrite !filter_length_cons. unfold id. lia.
Qed.

End Report.

(** X11. When every task has returned its dictionary, the walk over the
    futures keeps the results in the order of submission and counts the
    successes, and the statistics have one entry for each resolver of
    [DNS_SERVERS], the number of records reported under its name.  These
    entries do not add up to the count of successes: the difference is the
    number of records skipped as "Already downloaded", which are successes
    under no resolver's name. *)
Theorem statistics_leave_out_already_downloaded (results : list (gmap string pyval)) :
  Forall is_outcome results ->
  exists stats,
    DnsResolverMain.collect (Ok <$> results) [] 0
    = inr (results, length (List.filter succeeded results))
    /\ DnsResolverMain.dns_statistics DnsResolverDownload.DNS_SERVERS results ∅
       = inr stats
    /\ dom stats = list_to_set DnsResolverDownload.DNS_SERVERS.*1
    /\ Forall (fun s => stats !! s.1
                        = Some (length (List.filter (resolved_via s.1) results)))
         DnsResolverDownload.DNS_SERVERS
    /\ length (List.filter succeeded results)
       = (sum_list ((fun s => length (List.filter (resolved_via s.1) results))
                      <$> DnsResolverDownload.DNS_SERVERS)
          + length (List.filter (resolved_via "Already downloaded") results))%nat.
Proof.
  intros Hall. eexists. split; [by rewrite collect_all_returned|].
  split.
  { unfold DnsResolverDownload.DNS_SERVERS. cbn [DnsResolverMain.dns_statistics].
    rewrite !count_dns_all_returned by done. reflexivity. }
  split.
  { rewrite !dom_insert_L, dom_empty_L. unfold DnsResolverDownload.DNS_SERVERS.
    simpl. set_solver. }
  split; [|by apply successes_by_name].
  unfold DnsResolverDownload.DNS_SERVERS. repeat constructor; by simplify_map_eq.
Qed.

Lemma statistics_leave_out_already_downloaded_witness :
  sample_results
  = [ DnsResolverDownload.outcome (VStr "42") (VStr "Jane Doe") true (VStr "Default DNS");
      DnsResolverDownload.outcome (VStr "42") (VStr "Jane Doe") true
        (VStr "Already downloaded");
      DnsResolverDownload.outcome (VStr "42") (VStr "Jane Doe") false VNone ]
  /\ exists stats,
       DnsResolverMain.collect (Ok <$> sample_results) [] 0 = inr (sample_results, 2%nat)
       /\ DnsResolverMain.dns_statistics DnsResolverDownload.DNS_SERVERS
            sample_results ∅ = inr stats
       /\ stats = {[ "Google DNS" := 0%nat; "Cloudflare DNS" := 0%nat;
                     "OpenDNS" := 0%nat; "Quad9" := 0%nat; "Default DNS" := 1%nat ]}.
Proof.
  split; [vm_compute; reflexivity|].
  destruct (statistics_leave_out_already_downloaded sample_results)
    as (stats & Hcollect & Hstats & _).
  - unfold sample_results. simpl.
    repeat constructor.
    + exists only_default_resolves, jane, Stub.empty_world,
        (DnsResolverDownload.process_scholar only_default_resolves jane
           Stub.empty_world).2.
      vm_compute. reflexivity.
    + exists (Stub.offline PySet.first_seen), jane, jane_on_disk,
        (DnsResolverDownload.process_scholar (Stub.offline PySet.first_seen) jane
           jane_on_disk).2.
      vm_compute. reflexivity.
    + exists (Stub.offline PySet.first_seen), jane, Stub.empty_world,
        (DnsResolverDownload.process_scholar (Stub.offline PySet.first_seen) jane
           Stub.empty_world).2.
      vm_compute. reflexivity.
  - exists stats. split; [rewrite Hcollect; vm_compute; reflexivity|].
    split; [exact Hstats|].
    assert (DnsResolverMain.dns_statistics DnsResolverDownload.DNS_SERVERS
              sample_results ∅
            = inr {[ "Google DNS" := 0%nat; "Cloudflare DNS" := 0%nat;
                     "OpenDNS" := 0%nat; "Quad9" := 0%nat; "Default DNS" := 1%nat ]})
      as Heval by (vm_compute; reflexivity).
    rewrite Heval in Hstats. by injection Hstats.
Defined.

(** X12. When a task has raised, the walk over the futures re-raises the
    exception of the first such task at [future.result()]: the results of
    the tasks after it are never read and no statistics are computed, so
    the exception of one record ends [main]. *)
Theorem collect_aborts_on_first_raise (returned : list (gmap string pyval)) (e : exc)
    (later : list (result (gmap string pyval)))
    (results : list (gmap string pyval)) (n : nat) :
  Forall is_outcome returned ->
  DnsResolverMain.collect ((Ok <$> returned) ++ Raise e :: later) results n
  = inl (DnsResolverMain.TaskRaised e).
Proof.
  intros Hall. revert results n.
  induction Hall as [|d returned Hd _ IH]; intros results n; [reflexivity|].
  cbn [fmap list_fmap app DnsResolverMain.collect DnsResolverMain.future_result].
  unfold DnsResolverMain.item.
  destruct (is_outcome_keys d Hd) as [[v ->] _]. apply IH.
Qed.

Lemma collect_aborts_on_first_raise_witness :
  DnsResolverMain.collect
    [ (DnsResolverDownload.process_scholar (Stub.offline PySet.first_seen) jane
         jane_on_disk).1;
      (DnsResolverDownload.process_scholar (Stub.offline PySet.first_seen)
         row_without_url Stub.empty_world).1;
      (DnsResolverDownload.process_scholar only_default_resolves jane
         Stub.empty_world).1 ] [] 0
  = inl (DnsResolverMain.TaskRaised
           (Exc AttributeError "object has no attribute 'strip'")).
Proof.
  assert ([ (DnsResolverDownload.process_scholar (Stub.offline PySet.first_seen) jane
               jane_on_disk).1;
            (DnsResolverDownload.process_scholar (Stub.offline PySet.first_seen)
               row_without_url Stub.empty_world).1;
            (DnsResolverDownload.process_scholar only_default_resolves jane
               Stub.empty_world).1 ]
          = (Ok <$> [DnsResolverDownload.outcome (VStr "42") (VStr "Jane Doe") true
                       (VStr "Already downloaded")])
            ++ Raise (Exc AttributeError "object has no attribute 'strip'")
               :: [(DnsResolverDownload.process_scholar only_default_resolves jane
                      Stub.empty_world).1]) as ->.
  { vm_compute. reflexivity. }
  apply collect_aborts_on_first_raise.
  repeat constructor.
  exists (Stub.offline PySet.first_seen), jane, jane_on_disk,
    (DnsResolverDownload.process_scholar (Stub.offline PySet.first_seen) jane
       jane_on_disk).2.
  vm_compute. reflexivity.
Defined.

(** ** Running a record a second time *)
Section Rerun.
Variable E : Env.


Lemma download_image_success_inv row w fp w' :
  DownloadPhotos.download_image E row w = (Ok (Some fp), w') ->
  DownloadPhotos.no_image_url E (row_get row "image_url" (VStr "")) = Ok false
  /\ DownloadPhotos.artifact_path E (row_get row "image_url" (VStr ""))
       (row_get row "id" (VStr "")) (row_get row "name" (VStr "unknown")) = Ok fp
  /\ is_Some (files w' !! fp).
Proof.
  unfold DownloadPhotos.download_image. run.
  destruct (DownloadPhotos.no_image_url E (row_get row "image_url" (VStr "")))
    as [[]|e]; [done| |done].
  destruct (DownloadPhotos.artifact_path E _ _ _) as [fp'|e]; [|done].
  destruct (bool_decide (is_Some (files w !! fp'))) eqn:Hex.
  - intros [= <- <-]. split; [done|]. split; [done|].
    by apply bool_decide_eq_true in Hex.
  - destruct (DownloadPhotos.generate_alternative_urls E _ _ _) as [urls|e]; [|done].
    intros Hloop. apply try_urls_effect in Hloop as (_ & _ & Hret).
    destruct (Hret fp eq_refl) as [-> Hsome]. done.
Qed.

End Rerun.



(** X14. [download_image] is idempotent on its successes: once it has
    returned a path for a record, running it again on what the first run
    left returns the same path, writes nothing and requests no URL. *)
Theorem download_image_rerun_skips (E : Env) (row : gmap string pyval) (w w' : world)
    (fp : string) :
  DownloadPhotos.download_image E row w = (Ok (Some fp), w') ->
  DownloadPhotos.download_image E row w'
  = (Ok (Some fp),
     after w' [Log INFO ("Image already exists for "
                         +:+ py_str (row_get row "name" (VStr "unknown"))
                         +:+ ", skipping download")]).
Proof.
  intros Hrun.
  destruct (download_image_success_inv E row w fp w' Hrun) as (Hurl & Hfp & Hex).
  unfold DownloadPhotos.download_image. rewrite Hurl, Hfp. run.
  by rewrite (bool_decide_eq_true_2 _ Hex).
Qed.

Lemma download_image_rerun_skips_witness :
  DownloadPhotos.download_image (answering photo) jane
    (DownloadPhotos.download_image (answering photo) jane Stub.empty_world).2
  = (Ok (Some "scholar_photos/42_Jane_Doe.jpg"),
     after (DownloadPhotos.download_image (answering photo) jane Stub.empty_world).2
       [Log INFO ("Image already exists for "
                  +:+ py_str (row_get jane "name" (VStr "unknown"))
                  +:+ ", skipping download")]).
Proof.
  apply (download_image_rerun_skips (answering photo) jane Stub.empty_world).
  vm_compute. reflexivity.
Defined.

(** ** The file name of an artifact in the DNS script *)
Section FileName.



End FileName.


